(** * hikvision-camera-bot: alarm service, DVR file wrapper, upload worker
      and inbound task handlers.

    A shallow embedding of

      - [hikcamerabot/services/stream/dvr/file_wrapper.py]   (Module [FileWrapper])
      - [hikcamerabot/services/alarm/camera/alarm.py]        (Module [Alarm])
      - [hikcamerabot/event_engine/handlers/inbound.py]      (Module [Inbound])
      - [hikcamerabot/services/stream/dvr/upload/tasks/telegram.py]
                                                             (Module [Telegram])

    Python objects are records, Python [int] is [Z], [str] is [string].
    A method that mutates [self] or talks to a collaborator is a computation
    in the monad [Py.M W]: it takes the world [W] and gives back an outcome
    (a returned value or a raised exception) together with the world as the
    method left it.  A raised exception does not undo the assignments made
    before it, exactly as in Python.  Each coroutine is followed from its
    call to its return; [await] is sequencing.  Logger calls change neither
    the control flow nor any object and are kept as the no-op [Py.log]. *)

From Stdlib Require Import ZArith List String Ascii Bool Lia.
Import ListNotations.

Local Open Scope string_scope.
Local Open Scope Z_scope.

(* ====================================================================== *)
(** * Python outcomes and the state-and-exception monad *)
(* ====================================================================== *)

Module Py.

(** The exception classes the four source files raise, catch or let through.
    [RetryError] is tenacity's, wrapping the exception of the last attempt;
    [OtherError] stands for any other subclass of [Exception] (a network
    error of the chat client, for instance). *)
Inductive exn : Type :=
| ServiceRuntimeError (msg : string)
| HikvisionAPIError (msg : string)
| RuntimeError (msg : string)
| KeyError (key : string)
| IndexError
| TypeError
| ValueError
| FileNotFoundError
| RetryError (last : exn)
| OtherError (msg : string).

Inductive outcome (A : Type) : Type :=
| Return (a : A)
| Raise (e : exn).

Arguments Return {A} a.
Arguments Raise {A} e.

Definition M (W A : Type) : Type := W -> outcome A * W.

Definition ret {W A} (a : A) : M W A := fun w => (Return a, w).

Definition raise {W A} (e : exn) : M W A := fun w => (Raise e, w).

Definition bind {W A B} (c : M W A) (k : A -> M W B) : M W B :=
  fun w =>
    match c w with
    | (Return a, w') => k a w'
    | (Raise e, w') => (Raise e, w')
    end.

Definition get {W} : M W W := fun w => (Return w, w).

Definition modify {W} (f : W -> W) : M W unit := fun w => (Return tt, f w).

(** [try: body except <handles>: handler]: the handler runs in the world the
    body left behind. *)
Definition try_except {W A} (body : M W A) (handles : exn -> bool)
    (handler : exn -> M W A) : M W A :=
  fun w =>
    match body w with
    | (Return a, w') => (Return a, w')
    | (Raise e, w') => if handles e then handler e w' else (Raise e, w')
    end.

(** A pure step that may raise (a subscript, a conversion). *)
Definition lift {W A} (o : outcome A) : M W A := fun w => (o, w).

(** A logger call. *)
Definition log {W} : M W unit := ret tt.

(** Run a computation on a component of the world. *)
Definition zoom {W V A} (proj : W -> V) (upd : V -> W -> W) (c : M V A)
    : M W A :=
  fun w => let '(o, v) := c (proj w) in (o, upd v w).

End Py.

Import Py.

Declare Scope py_scope.
Delimit Scope py_scope with py.
Notation "x <- c ;; k" := (bind c (fun x => k))
  (at level 61, c at next level, right associativity) : py_scope.
Notation "c ;; k" := (bind c (fun _ => k))
  (at level 61, right associativity) : py_scope.
Local Open Scope py_scope.

(* ====================================================================== *)
(** * The camera reference *)
(* ====================================================================== *)

(** What the four files read from a [HikvisionCam]: [cam.id],
    [cam.description], [cam.hashtag], [cam.is_behind_nvr] and
    [cam.conf.livestream.dvr.local_storage_path]. *)
Record HikvisionCam : Type := {
  cam_id : string;
  cam_description : string;
  cam_hashtag : string;
  cam_is_behind_nvr : bool;
  cam_dvr_local_storage_path : string
}.

(* ====================================================================== *)
(** * file_wrapper.py *)
(* ====================================================================== *)

Module FileWrapper.

(** [pathlib.Path] values, kept symbolic: [Path(s)] and [p / s]. *)
Inductive Path : Type :=
| PathOf (s : string)
| PathJoin (p : Path) (s : string).

(** The JSON-like value the ffprobe task hands back, and the value of an
    attribute that may be [None]. *)
#[warnings="-register-all"]
Inductive pyval : Type :=
| VNone
| VBool (b : bool)
| VInt (z : Z)
| VStr (s : string)
| VList (l : list pyval)
| VDict (d : list (string * pyval)).

Record DvrFile : Type := {
  _filename : string;
  _lock_count : Z;
  _cam : HikvisionCam;
  _storage_path : Path;
  _full_path : Path;
  _thumbnail : Path;
  _duration : pyval;
  _width : pyval;
  _height : pyval;
  _probe_ctx : pyval;
  _is_broken : bool
}.

(** [DvrFile.__init__] *)
Definition __init__ (filename : string) (lock_count : Z) (cam : HikvisionCam)
    : outcome DvrFile :=
  if lock_count <=? 0 then
    Raise (RuntimeError "Lock count cannot be lower or equal 0")
  else
    let storage_path := PathOf (cam_dvr_local_storage_path cam) in
    Return {|
      _filename := filename;
      _lock_count := lock_count;
      _cam := cam;
      _storage_path := storage_path;
      _full_path := PathJoin storage_path filename;
      _thumbnail := PathJoin storage_path (filename ++ "-thumb.jpg");
      _duration := VNone;
      _width := VNone;
      _height := VNone;
      _probe_ctx := VNone;
      _is_broken := false
    |}.

(** Attribute assignments [self._x = v]. *)
Definition set_lock_count (v : Z) (f : DvrFile) : DvrFile :=
  {| _filename := _filename f; _lock_count := v; _cam := _cam f;
     _storage_path := _storage_path f; _full_path := _full_path f;
     _thumbnail := _thumbnail f; _duration := _duration f;
     _width := _width f; _height := _height f;
     _probe_ctx := _probe_ctx f; _is_broken := _is_broken f |}.

Definition set_duration (v : pyval) (f : DvrFile) : DvrFile :=
  {| _filename := _filename f; _lock_count := _lock_count f; _cam := _cam f;
     _storage_path := _storage_path f; _full_path := _full_path f;
     _thumbnail := _thumbnail f; _duration := v;
     _width := _width f; _height := _height f;
     _probe_ctx := _probe_ctx f; _is_broken := _is_broken f |}.

Definition set_width (v : pyval) (f : DvrFile) : DvrFile :=
  {| _filename := _filename f; _lock_count := _lock_count f; _cam := _cam f;
     _storage_path := _storage_path f; _full_path := _full_path f;
     _thumbnail := _thumbnail f; _duration := _duration f;
     _width := v; _height := _height f;
     _probe_ctx := _probe_ctx f; _is_broken := _is_broken f |}.

Definition set_height (v : pyval) (f : DvrFile) : DvrFile :=
  {| _filename := _filename f; _lock_count := _lock_count f; _cam := _cam f;
     _storage_path := _storage_path f; _full_path := _full_path f;
     _thumbnail := _thumbnail f; _duration := _duration f;
     _width := _width f; _height := v;
     _probe_ctx := _probe_ctx f; _is_broken := _is_broken f |}.

Definition set_probe_ctx (v : pyval) (f : DvrFile) : DvrFile :=
  {| _filename := _filename f; _lock_count := _lock_count f; _cam := _cam f;
     _storage_path := _storage_path f; _full_path := _full_path f;
     _thumbnail := _thumbnail f; _duration := _duration f;
     _width := _width f; _height := _height f;
     _probe_ctx := v; _is_broken := _is_broken f |}.

Definition set_is_broken (v : bool) (f : DvrFile) : DvrFile :=
  {| _filename := _filename f; _lock_count := _lock_count f; _cam := _cam f;
     _storage_path := _storage_path f; _full_path := _full_path f;
     _thumbnail := _thumbnail f; _duration := _duration f;
     _width := _width f; _height := _height f;
     _probe_ctx := _probe_ctx f; _is_broken := v |}.

(** [DvrFile.decrement_lock_count] *)
Definition decrement_lock_count (f : DvrFile) : DvrFile :=
  if _lock_count f >? 0 then set_lock_count (_lock_count f - 1) f else f.

(** The read-only properties. *)
Definition is_broken (f : DvrFile) : bool := _is_broken f.
Definition name (f : DvrFile) : string := _filename f.
Definition height (f : DvrFile) : pyval := _height f.
Definition width (f : DvrFile) : pyval := _width f.
Definition duration (f : DvrFile) : pyval := _duration f.
Definition full_path (f : DvrFile) : Path := _full_path f.
Definition is_locked (f : DvrFile) : bool := negb (_lock_count f =? 0).
Definition lock_count (f : DvrFile) : Z := _lock_count f.

(** [n] calls of [decrement_lock_count] in a row. *)
Fixpoint decrements (n : nat) (f : DvrFile) : DvrFile :=
  match n with
  | O => f
  | S n' => decrements n' (decrement_lock_count f)
  end.

(** ** Subscripts, truth values and iteration on [pyval] *)

Fixpoint assoc (key : string) (d : list (string * pyval)) : option pyval :=
  match d with
  | [] => None
  | (k, v) :: rest => if String.eqb k key then Some v else assoc key rest
  end.

(** [v[key]] for a [str] key: only a dict accepts it. *)
Definition getitem (v : pyval) (key : string) : outcome pyval :=
  match v with
  | VDict d =>
      match assoc key d with
      | Some x => Return x
      | None => Raise (KeyError key)
      end
  | _ => Raise TypeError
  end.

(** [l[0]] on a list. *)
Definition getitem0 (l : list pyval) : outcome pyval :=
  match l with
  | x :: _ => Return x
  | [] => Raise IndexError
  end.

(** [bool(v)] *)
Definition truthy (v : pyval) : bool :=
  match v with
  | VNone => false
  | VBool b => b
  | VInt z => negb (z =? 0)
  | VStr s => negb (String.eqb s "")
  | VList l => match l with [] => false | _ => true end
  | VDict d => match d with [] => false | _ => true end
  end.

Fixpoint chars (s : string) : list pyval :=
  match s with
  | EmptyString => []
  | String c rest => VStr (String c EmptyString) :: chars rest
  end.

(** [for x in v]: the items a [for] clause goes through. *)
Definition py_iter (v : pyval) : outcome (list pyval) :=
  match v with
  | VList l => Return l
  | VDict d => Return (map (fun kv => VStr (fst kv)) d)
  | VStr s => Return (chars s)
  | _ => Raise TypeError
  end.

(** [v == s] for a [str] literal [s]. *)
Definition eq_str (v : pyval) (s : string) : bool :=
  match v with
  | VStr s' => String.eqb s' s
  | _ => false
  end.

(** [[stream for stream in items if stream['codec_type'] == 'video']] *)
Fixpoint select_video (items : list pyval) : outcome (list pyval) :=
  match items with
  | [] => Return []
  | stream :: rest =>
      match getitem stream "codec_type" with
      | Raise e => Raise e
      | Return c =>
          match select_video rest with
          | Raise e => Raise e
          | Return vs => Return (if eq_str c "video" then stream :: vs else vs)
          end
      end
  end.

(** [[stream for stream in probe_ctx['streams']
      if stream['codec_type'] == 'video']] *)
Definition video_streams_of (probe_ctx : pyval) : outcome (list pyval) :=
  match getitem probe_ctx "streams" with
  | Raise e => Raise e
  | Return streams =>
      match py_iter streams with
      | Raise e => Raise e
      | Return items => select_video items
      end
  end.

(** [probe_ctx['format']['duration']] *)
Definition format_duration (probe_ctx : pyval) : outcome pyval :=
  match getitem probe_ctx "format" with
  | Raise e => Raise e
  | Return fmt => getitem fmt "duration"
  end.

Definition is_KeyError (e : exn) : bool :=
  match e with
  | KeyError _ => true
  | _ => false
  end.

(** [int(float(v))].  The conversion is Python's own and works on floating
    point numbers; it is taken as given, with whatever it raises. *)
Class Builtins : Type := {
  int_float : pyval -> outcome Z
}.

Section Probe.
Context `{Builtins}.

(** [DvrFile._mark_as_broken] *)
Definition _mark_as_broken : M DvrFile unit :=
  log ;;
  modify (set_is_broken true).

(** The guarded block of [_get_probe_ctx]: the three assignments under
    [try]. *)
Definition extract_metadata (video_streams : list pyval) : M DvrFile unit :=
  self <- get ;;
  d <- lift (format_duration (_probe_ctx self)) ;;
  z <- lift (int_float d) ;;
  modify (set_duration (VInt z)) ;;
  s0 <- lift (getitem0 video_streams) ;;
  h <- lift (getitem s0 "height") ;;
  modify (set_height h) ;;
  s0' <- lift (getitem0 video_streams) ;;
  w <- lift (getitem s0' "width") ;;
  modify (set_width w).

(** [DvrFile._get_probe_ctx].  [probe] is what
    [await GetFfprobeContextTask(self.full_path).run()] returned. *)
Definition _get_probe_ctx (probe : pyval) : M DvrFile unit :=
  modify (set_probe_ctx probe) ;;
  self <- get ;;
  if negb (truthy (_probe_ctx self)) then
    _mark_as_broken
  else
    video_streams <- lift (video_streams_of (_probe_ctx self)) ;;
    try_except (extract_metadata video_streams) is_KeyError
      (fun _ => log ;; _mark_as_broken).

End Probe.

(** No metadata has been stored on the file. *)
Definition metadata_unset (f : DvrFile) : Prop :=
  duration f = VNone /\ width f = VNone /\ height f = VNone.

(** ** The properties that look at the disk *)

(** The regular files on disk, with their size in bytes. *)
Definition FS : Type := Path -> option Z.

(** [Path.is_file()] *)
Definition is_file (fs : FS) (p : Path) : bool :=
  match fs p with
  | Some _ => true
  | None => false
  end.

(** [DvrFile.exists] *)
Definition exists_ (fs : FS) (f : DvrFile) : bool := is_file fs (full_path f).

(** [DvrFile.is_empty]: [stat()] raises on a missing file. *)
Definition is_empty (fs : FS) (f : DvrFile) : outcome bool :=
  match fs (full_path f) with
  | Some st_size => Return (st_size =? 0)
  | None => Raise FileNotFoundError
  end.

(** [DvrFile.thumbnail] *)
Definition thumbnail (fs : FS) (f : DvrFile) : option Path :=
  if is_file fs (_thumbnail f) then Some (_thumbnail f) else None.

(** ** What happens to a file object after it is built *)

(** [_make_thumbnail_frame]. [made] is what
    [await MakeThumbnailTask(self._thumbnail, self.full_path).run()]
    returned; a failure is logged. *)
Definition _make_thumbnail_frame (made : bool) : M DvrFile unit :=
  if negb made then log else ret tt.

(** The two calls the rest of the program makes on a [DvrFile] that change
    it: a probe (reached through [make_context]) and the release of a
    lock. *)
Inductive Operation : Type :=
| Probe (probe : pyval)
| Decrement.

(** The number of lock releases among [ops]. *)
Fixpoint releases (ops : list Operation) : nat :=
  match ops with
  | [] => O
  | Decrement :: rest => S (releases rest)
  | Probe _ :: rest => releases rest
  end.

Section Life.
Context `{Builtins}.

(** The file after one operation.  An exception of the probe goes to the
    caller; the object stays as the probe left it. *)
Definition apply_operation (f : DvrFile) (op : Operation) : DvrFile :=
  match op with
  | Probe probe => snd (_get_probe_ctx probe f)
  | Decrement => decrement_lock_count f
  end.

Definition apply_operations (ops : list Operation) (f : DvrFile) : DvrFile :=
  fold_left apply_operation ops f.

End Life.

End FileWrapper.

(* ====================================================================== *)
(** * alarm.py *)
(* ====================================================================== *)

Module Alarm.

(** [hikcamerabot.enums] and [hikcamerabot.constants] are imported by the
    source and taken as given: the detection types, the list
    [DetectionType.choices()] that [ALARM_TRIGGERS] is bound to, and the
    ['name'] entry of [DETECTION_SWITCH_MAP] as it is formatted into a
    message. *)
Class Constants : Type := {
  DetectionType : Type;
  ALARM_TRIGGERS : list DetectionType;
  DETECTION_SWITCH_MAP_name : DetectionType -> string
}.

(** The camera behind [HikvisionAPI]: [switch] answers with the optional
    informational text or raises, and the camera moves on to its next state
    either way. *)
Class HikvisionAPI `{Constants} : Type := {
  Api : Type;
  switch : DetectionType -> bool -> Api -> outcome (option string) * Api
}.

Section Service.
Context `{HikvisionAPI}.

(** The attributes of an [AlarmService].  [_conf t] is
    [self._conf.get_detection_schema_by_type(type_=t).enabled]; [_started]
    is whether the [asyncio.Event] is set. *)
Record AlarmService : Type := {
  cam : HikvisionCam;
  _conf : DetectionType -> bool;
  alert_delay : Z;
  _alert_count : Z;
  _started : bool
}.

(** Calls that leave the service, in the order they are made: the camera's
    switch, the flag of the service being set or cleared, and [create_task]
    for the monitoring task. *)
Inductive Event : Type :=
| EvSwitch (trigger : DetectionType) (state : bool)
| EvStarted (flag : bool)
| EvCreateTask (task_name : string).

Record World : Type := {
  service : AlarmService;
  api : Api;
  trace : list Event
}.

Definition set_started (b : bool) (s : AlarmService) : AlarmService :=
  {| cam := cam s; _conf := _conf s; alert_delay := alert_delay s;
     _alert_count := _alert_count s; _started := b |}.

Definition set_alert_count (n : Z) (s : AlarmService) : AlarmService :=
  {| cam := cam s; _conf := _conf s; alert_delay := alert_delay s;
     _alert_count := n; _started := _started s |}.

Definition with_service (f : AlarmService -> AlarmService) (w : World)
    : World :=
  {| service := f (service w); api := api w; trace := trace w |}.

Definition emit (ev : Event) : M World unit :=
  modify (fun w =>
    {| service := service w; api := api w; trace := trace w ++ [ev] |}).

(** [AlarmService.alert_count] and [increase_alert_count] *)
Definition alert_count (s : AlarmService) : Z := _alert_count s.

Definition increase_alert_count : M World unit :=
  modify (with_service (fun s => set_alert_count (_alert_count s + 1) s)).

(** [AlarmService.started] *)
Definition started (s : AlarmService) : bool := _started s.

(** [AlarmService.enabled_in_conf] *)
Definition enabled_in_conf (s : AlarmService) : bool :=
  existsb (_conf s) ALARM_TRIGGERS.

(** [await self._api.switch(trigger=trigger, state=state)] *)
Definition api_switch (trigger : DetectionType) (state : bool)
    : M World (option string) :=
  emit (EvSwitch trigger state) ;;
  (fun w =>
     let '(o, a) := switch trigger state (api w) in
     (o, {| service := service w; api := a; trace := trace w |})).

Definition is_HikvisionAPIError (e : exn) : bool :=
  match e with
  | HikvisionAPIError _ => true
  | _ => false
  end.

(** [str(err)] for the exceptions that carry the message they were raised
    with.  It is applied to those only: to a [HikvisionAPIError] in
    [trigger_switch] and to a [ServiceRuntimeError] in the toggle handlers
    of [inbound.py].  The other classes do not keep their text here. *)
Definition str (e : exn) : string :=
  match e with
  | ServiceRuntimeError msg | HikvisionAPIError msg | RuntimeError msg
  | OtherError msg => msg
  | _ => ""
  end.

(** [AlarmService.trigger_switch] *)
Definition trigger_switch (trigger : DetectionType) (state : bool)
    : M World (option string) :=
  let full_name := DETECTION_SWITCH_MAP_name trigger in
  log ;;
  try_except (api_switch trigger state) is_HikvisionAPIError
    (fun err =>
       let err_msg := full_name ++ " Switch encountered an error: " ++ str err in
       log ;;
       raise (ServiceRuntimeError err_msg)).

(** The loop of [_enable_triggers_on_camera] over the triggers still to
    visit. *)
Fixpoint enable_triggers (triggers : list DetectionType) : M World unit :=
  match triggers with
  | [] => ret tt
  | trigger :: rest =>
      w <- get ;;
      (if _conf (service w) trigger
       then _ <- trigger_switch trigger true ;; ret tt
       else ret tt) ;;
      enable_triggers rest
  end.

(** [AlarmService._enable_triggers_on_camera] *)
Definition _enable_triggers_on_camera : M World unit :=
  enable_triggers ALARM_TRIGGERS.

(** [AlarmService._start_service_task] *)
Definition _start_service_task : M World unit :=
  w <- get ;;
  let task_name := "ServiceAlarmMonitoringTask_" ++ cam_id (cam (service w)) in
  emit (EvCreateTask task_name).

(** [self._started.set()] and [self._started.clear()] *)
Definition _started_set : M World unit :=
  modify (with_service (set_started true)) ;;
  emit (EvStarted true).

Definition _started_clear : M World unit :=
  modify (with_service (set_started false)) ;;
  emit (EvStarted false).

(** [AlarmService.start] *)
Definition start : M World unit :=
  w <- get ;;
  if cam_is_behind_nvr (cam (service w)) then
    log ;;
    ret tt
  else
    w <- get ;;
    if started (service w) then
      raise (ServiceRuntimeError "Alarm (alert) mode already started")
    else
      _enable_triggers_on_camera ;;
      _started_set ;;
      _start_service_task.

(** [AlarmService.stop] *)
Definition stop : M World unit :=
  w <- get ;;
  if negb (started (service w)) then
    raise (ServiceRuntimeError "Alarm alert mode already stopped")
  else
    _started_clear.

(** The switch events of a trace. *)
Definition is_switch (ev : Event) : bool :=
  match ev with
  | EvSwitch _ _ => true
  | _ => false
  end.

Definition is_create_task (ev : Event) : bool :=
  match ev with
  | EvCreateTask _ => true
  | _ => false
  end.

(** ** Vocabulary for the properties *)

(** The world after a switch call that left the camera in state [a]. *)
Definition switched (t : DetectionType) (st : bool) (a : Api) (w : World)
    : World :=
  {| service := service w; api := a; trace := trace w ++ [EvSwitch t st] |}.

(** The calls that enable the triggers [ts], in order. *)
Definition enabling (ts : list DetectionType) : list Event :=
  map (fun t => EvSwitch t true) ts.

(** The camera answers every request to enable a trigger. *)
Definition camera_accepts : Prop :=
  forall (t : DetectionType) (a : Api),
    exists txt a', switch t true a = (Return txt, a').

(** The name [_start_service_task] gives the monitoring task. *)
Definition task_name (w : World) : string :=
  "ServiceAlarmMonitoringTask_" ++ cam_id (cam (service w)).

(** The world after [self._started.set()] and [_start_service_task()]. *)
Definition started_world (w : World) : World :=
  {| service := set_started true (service w); api := api w;
     trace := (trace w ++ [EvStarted true]) ++ [EvCreateTask (task_name w)] |}.

(** The exception a caller of [trigger_switch] sees when the camera raised
    [e] on the switch of trigger [t]. *)
Definition switch_error (t : DetectionType) (e : exn) : exn :=
  match e with
  | HikvisionAPIError msg =>
      ServiceRuntimeError
        (DETECTION_SWITCH_MAP_name t ++ " Switch encountered an error: "
         ++ msg)
  | _ => e
  end.

(** The camera alone, asked to enable one after the other the triggers of
    [ts] that [conf] enables, from state [a] on: the first trigger whose
    switch it answers with an exception, and that exception; [None] when it
    answers every one of them. *)
Fixpoint first_failure (conf : DetectionType -> bool)
    (ts : list DetectionType) (a : Api) : option (DetectionType * exn) :=
  match ts with
  | [] => None
  | t :: rest =>
      if conf t then
        match switch t true a with
        | (Return _, a') => first_failure conf rest a'
        | (Raise e, _) => Some (t, e)
        end
      else first_failure conf rest a
  end.

End Service.

Section Lifecycle.
Context `{HikvisionAPI}.

(** [AlarmService.__init__].  [conf] and [delay] are what the service reads
    from its [AlertSchema]. *)
Definition __init__ (conf : DetectionType -> bool) (delay : Z)
    (c : HikvisionCam) : AlarmService :=
  {| cam := c; _conf := conf; alert_delay := delay; _alert_count := 0;
     _started := false |}.

(** A new service on a camera in state [a], before any call. *)
Definition new_world (conf : DetectionType -> bool) (delay : Z)
    (c : HikvisionCam) (a : Api) : World :=
  {| service := __init__ conf delay c; api := a; trace := [] |}.

(** The calls other objects make on the service. *)
Inductive Call : Type :=
| CallStart
| CallStop
| CallTriggerSwitch (trigger : DetectionType) (state : bool)
| CallIncreaseAlertCount.

(** The world after one call, whether it returned or raised. *)
Definition after_call (w : World) (c : Call) : World :=
  match c with
  | CallStart => snd (start w)
  | CallStop => snd (stop w)
  | CallTriggerSwitch trigger state => snd (trigger_switch trigger state w)
  | CallIncreaseAlertCount => snd (increase_alert_count w)
  end.

Definition after_calls (cs : list Call) (w : World) : World :=
  fold_left after_call cs w.

Definition is_started_set (ev : Event) : bool :=
  match ev with
  | EvStarted true => true
  | _ => false
  end.

Definition is_started_clear (ev : Event) : bool :=
  match ev with
  | EvStarted false => true
  | _ => false
  end.

(** The number of events of a trace that satisfy [p]. *)
Definition count (p : Event -> bool) (evs : list Event) : nat :=
  List.length (filter p evs).

(** The flag and the trace agree, and every time the flag was set a
    monitoring task was created. *)
Definition consistent (w : World) : Prop :=
  count is_started_set (trace w)
  = (count is_started_clear (trace w)
     + if started (service w) then 1 else 0)%nat
  /\ count is_create_task (trace w) = count is_started_set (trace w).

(** Tells the calls of [increase_alert_count] from the others. *)
Definition is_increase (c : Call) : bool :=
  match c with
  | CallIncreaseAlertCount => true
  | _ => false
  end.

End Lifecycle.

End Alarm.

(* ====================================================================== *)
(** * inbound.py *)
(* ====================================================================== *)

Module Inbound.

Section Handlers.
Context `{Alarm.HikvisionAPI}.
Context {EventType Message : Type}.

(** [DetectionConfEvent].  The event's [cam] is a reference to the one
    camera of the world below, so the record carries the other fields. *)
Record DetectionConfEvent : Type := {
  event : EventType;
  type : Alarm.DetectionType;
  state : bool;
  message : Message
}.

(** The outbound event the detection handler builds. *)
Inductive OutboundEvent : Type :=
| DetectionConfOutboundEvent (event : EventType) (type : Alarm.DetectionType)
    (state : bool) (cam : HikvisionCam) (message : Message)
    (text : option string).

(** The camera's alarm service with its API ([cam.services.alarm]) and the
    result queue of [get_result_queue()], oldest event first. *)
Record World : Type := {
  alarm : Alarm.World;
  result_queue : list OutboundEvent
}.

Definition set_alarm (a : Alarm.World) (w : World) : World :=
  {| alarm := a; result_queue := result_queue w |}.

(** [await self._result_queue.put(ev)] *)
Definition put (ev : OutboundEvent) : M World unit :=
  modify (fun w =>
    {| alarm := alarm w; result_queue := result_queue w ++ [ev] |}).

(** [TaskDetectionConf._handle] *)
Definition TaskDetectionConf_handle (ev : DetectionConfEvent)
    : M World unit :=
  w <- get ;;
  let cam := Alarm.cam (Alarm.service (alarm w)) in
  let trigger := type ev in
  let name := Alarm.DETECTION_SWITCH_MAP_name trigger in
  let state := state ev in
  log ;;
  text <- zoom alarm set_alarm (Alarm.trigger_switch trigger state) ;;
  put (DetectionConfOutboundEvent (event ev) (type ev) state cam
         (message ev) text).

(** [AbstractTaskEvent.handle], for the detection handler. *)
Definition handle (ev : DetectionConfEvent) : M World unit :=
  TaskDetectionConf_handle ev.

End Handlers.

End Inbound.

(* ====================================================================== *)
(** * telegram.py *)
(* ====================================================================== *)

Module Telegram.

(** The keyword arguments of [send_video]. *)
Record SendVideo : Type := {
  chat_id : Z;
  caption : string;
  video : FileWrapper.Path;
  file_name : string;
  duration : FileWrapper.pyval;
  height : FileWrapper.pyval;
  width : FileWrapper.pyval;
  thumb : option FileWrapper.Path;
  supports_streaming : bool
}.

(** The chat client behind [self._bot]: each call returns or raises, and the
    network moves on to its next state either way. *)
Class CameraBot : Type := {
  Net : Type;
  send_chat_action : Z -> Net -> outcome unit * Net;
  send_video : SendVideo -> Net -> outcome unit * Net
}.

(** tenacity's [retry(wait=wait_fixed(_), stop=stop_after_attempt(n))] with
    no [reraise]: the body is run again after every exception until attempt
    [n] has failed, and then [RetryError] is raised from the last exception.
    The wait between two attempts takes time and changes nothing. *)
Fixpoint retrying {W A} (attempts_left : nat) (body : M W A) (w : W)
    {struct attempts_left} : outcome A * W :=
  match body w with
  | (Return a, w') => (Return a, w')
  | (Raise e, w') =>
      match attempts_left with
      | O => (Raise (RetryError e), w')
      | S n => retrying n body w'
      end
  end.

Definition retry {W A} (stop_after_attempt : nat) (body : M W A) : M W A :=
  retrying (stop_after_attempt - 1) body.

Definition _UPLOAD_RETRY_WAIT : Z := 5.
Definition _UPLOAD_RETRY_STOP_AFTER : nat := 5.

Section UploadTask.
Context `{CameraBot}.

(** Calls that leave the task, in the order they are made: the disk
    ([is_file], [stat]) and the chat client. *)
Inductive Event : Type :=
| EvIsFile (p : FileWrapper.Path)
| EvStat (p : FileWrapper.Path)
| EvSendChatAction (chat_id : Z)
| EvSendVideo (args : SendVideo).

(** The [DvrFile] objects by identity, the disk, the network and the calls
    made so far.  A queue holds identities: two references to one file see
    the same lock count. *)
Record World : Type := {
  files : nat -> FileWrapper.DvrFile;
  disk : FileWrapper.FS;
  net : Net;
  trace : list Event
}.

(** What the task reads from [self._cam] and [self._conf]. *)
Record TelegramDvrUploadTask : Type := {
  task_cam : HikvisionCam;
  task_conf_group_id : Z
}.

Definition emit (ev : Event) : M World unit :=
  modify (fun w =>
    {| files := files w; disk := disk w; net := net w;
       trace := trace w ++ [ev] |}).

Definition on_net {A} (call : Net -> outcome A * Net) : M World A :=
  fun w =>
    let '(o, n) := call (net w) in
    (o, {| files := files w; disk := disk w; net := n; trace := trace w |}).

Definition update_file (file_ : nat) (g : FileWrapper.DvrFile -> FileWrapper.DvrFile)
    (w : World) : World :=
  {| files := fun i => if Nat.eqb i file_ then g (files w i) else files w i;
     disk := disk w; net := net w; trace := trace w |}.

(** [file_.exists], [file_.is_empty] and [file_.thumbnail] as the task
    reaches them. *)
Definition file_exists (file_ : nat) : M World bool :=
  w <- get ;;
  emit (EvIsFile (FileWrapper.full_path (files w file_))) ;;
  ret (FileWrapper.exists_ (disk w) (files w file_)).

Definition file_is_empty (file_ : nat) : M World bool :=
  w <- get ;;
  emit (EvStat (FileWrapper.full_path (files w file_))) ;;
  lift (FileWrapper.is_empty (disk w) (files w file_)).

Definition file_thumbnail (file_ : nat) : M World (option FileWrapper.Path) :=
  w <- get ;;
  emit (EvIsFile (FileWrapper._thumbnail (files w file_))) ;;
  ret (FileWrapper.thumbnail (disk w) (files w file_)).

(** [x or 0] *)
Definition or_0 (x : FileWrapper.pyval) : FileWrapper.pyval :=
  if FileWrapper.truthy x then x else FileWrapper.VInt 0.

Variable self : TelegramDvrUploadTask.

(** [TelegramDvrUploadTask._validate_file] *)
Definition _validate_file (file_ : nat) : M World bool :=
  e <- file_exists file_ ;;
  if negb e then
    log ;;
    ret false
  else
    w <- get ;;
    if FileWrapper.is_broken (files w file_) then
      log ;;
      ret false
    else
      empty <- file_is_empty file_ ;;
      if empty then
        log ;;
        ret false
      else
        ret true.

(** [TelegramDvrUploadTask.__upload] *)
Definition __upload (file_ : nat) : M World unit :=
  valid <- _validate_file file_ ;;
  if negb valid then
    ret tt
  else
    log ;;
    let caption :=
      "Video from " ++ cam_description (task_cam self) ++ " "
        ++ cam_hashtag (task_cam self) in
    emit (EvSendChatAction (task_conf_group_id self)) ;;
    on_net (send_chat_action (task_conf_group_id self)) ;;
    w <- get ;;
    let f := files w file_ in
    thumb <- file_thumbnail file_ ;;
    let args :=
      {| chat_id := task_conf_group_id self;
         caption := caption;
         video := FileWrapper.full_path f;
         file_name := FileWrapper.name f;
         duration := or_0 (FileWrapper.duration f);
         height := or_0 (FileWrapper.height f);
         width := or_0 (FileWrapper.width f);
         thumb := thumb;
         supports_streaming := true |} in
    emit (EvSendVideo args) ;;
    on_net (send_video args) ;;
    log.

(** The body of [_upload_video]: one attempt. *)
Definition upload_attempt (file_ : nat) : M World unit :=
  try_except (__upload file_) (fun _ => true)
    (fun e => log ;; raise e).

(** [TelegramDvrUploadTask._upload_video], under its [@retry] decorator. *)
Definition _upload_video (file_ : nat) : M World unit :=
  retry _UPLOAD_RETRY_STOP_AFTER (upload_attempt file_).

(** One turn of the [while True] loop of [_process_queue], for the file the
    queue handed over. *)
Definition process_file (file_ : nat) : M World unit :=
  _upload_video file_ ;;
  modify (update_file file_ FileWrapper.decrement_lock_count).

(** [TelegramDvrUploadTask._process_queue] on the files that
    [self._queue.get()] hands over, in order.  [Return tt] is the task
    waiting at [get()] with nothing left in the queue; [Raise e] is the
    task ended by [e]. *)
Fixpoint _process_queue (pending : list nat) : M World unit :=
  match pending with
  | [] => ret tt
  | file_ :: rest =>
      process_file file_ ;;
      _process_queue rest
  end.

(** [TelegramDvrUploadTask.run] *)
Definition run (pending : list nat) : M World unit :=
  log ;;
  _process_queue pending.

Definition is_send_video (ev : Event) : bool :=
  match ev with
  | EvSendVideo _ => true
  | _ => false
  end.

Definition is_bot_call (ev : Event) : bool :=
  match ev with
  | EvSendChatAction _ | EvSendVideo _ => true
  | _ => false
  end.

(** ** Vocabulary for the properties *)

(** The world with the calls [evs] added. *)
Definition traced (evs : list Event) (w : World) : World :=
  {| files := files w; disk := disk w; net := net w;
     trace := trace w ++ evs |}.

(** The file passes the three checks of [_validate_file]: it is on disk, not
    marked broken and not empty. *)
Definition passes_validation (w : World) (file_ : nat) : bool :=
  FileWrapper.exists_ (disk w) (files w file_)
  && negb (FileWrapper.is_broken (files w file_))
  && match FileWrapper.is_empty (disk w) (files w file_) with
     | Return false => true
     | _ => false
     end.

(** The file fails one of the three checks. *)
Definition fails_validation (w : World) (file_ : nat) : Prop :=
  FileWrapper.exists_ (disk w) (files w file_) = false
  \/ FileWrapper.is_broken (files w file_) = true
  \/ FileWrapper.is_empty (disk w) (files w file_) = Return true.

(** [send_chat_action] always returns and [send_video] always raises. *)
Definition transport_always_fails : Prop :=
  (forall g n, exists n', send_chat_action g n = (Return tt, n'))
  /\ (forall args n, exists e n', send_video args n = (Raise e, n')).

(** The number of [send_video] calls in a trace. *)
Definition send_video_calls (evs : list Event) : nat :=
  List.length (filter is_send_video evs).

End UploadTask.

Section Transport.
Context `{CameraBot}.

(** [send_chat_action] and [send_video] always return. *)
Definition transport_always_delivers : Prop :=
  (forall g n, exists n', send_chat_action g n = (Return tt, n'))
  /\ (forall args n, exists n', send_video args n = (Return tt, n')).

End Transport.

(** [body] raises [k] times in a row from [w], which takes the world to
    [w']. *)
Fixpoint fails_in_a_row {W A : Type} (k : nat) (body : M W A) (w w' : W)
    : Prop :=
  match k with
  | O => w' = w
  | S k' =>
      exists e w1, body w = (Raise e, w1) /\ fails_in_a_row k' body w1 w'
  end.

End Telegram.

(* ====================================================================== *)
(** * inbound.py, the other handlers *)
(* ====================================================================== *)

Module Handlers.

(** What the handlers take from [hikcamerabot.enums], from
    [hikcamerabot.utils.shared] and from the events, as given: the event
    kinds with [EventType.SEND_TEXT], the opaque message handle, the service
    types and names, the IR-cut filter types with their [.value], the image
    buffer with [img.getbuffer().nbytes], and [bold]. *)
Class Environment : Type := {
  EventType : Type;
  SEND_TEXT : EventType;
  Message : Type;
  ServiceType : Type;
  ServiceName : Type;
  IrcutFilterType : Type;
  IrcutFilterType_value : IrcutFilterType -> string;
  Image : Type;
  nbytes : Image -> Z;
  bold : string -> string
}.

(** The camera object behind [event.cam] with its service manager: each
    call returns or raises, and the camera moves on to its next state either
    way. *)
Class Camera `{Environment} : Type := {
  Cam : Type;
  take_snapshot : Z -> bool -> Cam -> outcome (Image * Z) * Cam;
  snapshots_taken : Cam -> Z;
  start_videogif_record : Message -> bool -> Cam -> outcome unit * Cam;
  set_ircut_filter : IrcutFilterType -> Cam -> outcome unit * Cam;
  service_manager_start : ServiceType -> ServiceName -> Cam -> outcome unit * Cam;
  service_manager_stop : ServiceType -> ServiceName -> Cam -> outcome unit * Cam
}.

(** [str(err)] as Python gives it for an exception of any class, taken as
    given: the text the exception was raised with. *)
Class ExceptionText : Type := {
  str_err : exn -> string
}.

Section Handlers.
Context `{Camera}.
Context `{ExceptionText}.

(** The inbound events, without their [cam], which is the one camera of the
    world below. *)
Record GetPicEvent : Type := {
  pic_event : EventType;
  pic_resize : bool;
  pic_message : Message
}.

Record GetVideoEvent : Type := {
  video_event : EventType;
  video_rewind : bool;
  video_message : Message
}.

Record AlertConfEvent : Type := {
  alert_event : EventType;
  alert_service_type : ServiceType;
  alert_service_name : ServiceName;
  alert_state : bool;
  alert_message : Message
}.

Record StreamEvent : Type := {
  stream_event : EventType;
  stream_service_type : ServiceType;
  stream_type : ServiceName;
  stream_state : bool;
  stream_message : Message
}.

Record IrcutConfEvent : Type := {
  ircut_event : EventType;
  ircut_filter_type : IrcutFilterType;
  ircut_message : Message
}.

(** The outbound events these handlers build. *)
Inductive OutboundEvent : Type :=
| SendTextOutboundEvent (event : EventType) (text : string)
    (message : Message)
| SnapshotOutboundEvent (event : EventType) (img : Image) (create_ts : Z)
    (taken_count : Z) (resized : bool) (message : Message)
    (cam : HikvisionCam) (file_size : Z)
| AlarmConfOutboundEvent (event : EventType) (service_type : ServiceType)
    (service_name : ServiceName) (state : bool) (cam : HikvisionCam)
    (message : Message) (text : option string)
| StreamOutboundEvent (event : EventType) (service_type : ServiceType)
    (stream_type : ServiceName) (state : bool) (cam : HikvisionCam)
    (message : Message) (text : option string).

(** The camera ([cam.id], [cam.description],
    [cam.conf.picture.on_demand.channel] and its state) and the result
    queue, oldest event first. *)
Record World : Type := {
  cam : HikvisionCam;
  on_demand_channel : Z;
  device : Cam;
  result_queue : list OutboundEvent
}.

(** [await self._result_queue.put(ev)] *)
Definition put (ev : OutboundEvent) : M World unit :=
  modify (fun w =>
    {| cam := cam w; on_demand_channel := on_demand_channel w;
       device := device w; result_queue := result_queue w ++ [ev] |}).

(** A call on the camera. *)
Definition on_device {A} (call : Cam -> outcome A * Cam) : M World A :=
  fun w =>
    let '(o, d) := call (device w) in
    (o, {| cam := cam w; on_demand_channel := on_demand_channel w;
           device := d; result_queue := result_queue w |}).

Definition is_ServiceRuntimeError (e : exn) : bool :=
  match e with
  | ServiceRuntimeError _ => true
  | _ => false
  end.

Definition newline : string := String "010"%char "".

(** The text of the event that reports a failed snapshot. *)
Definition snapshot_failure_text (c : HikvisionCam) (err : exn) : string :=
  "🛑 "
  ++ bold ("Failed to take picture on [" ++ cam_id c ++ "] "
           ++ cam_description c)
  ++ newline ++ newline
  ++ bold ("👀 Details: " ++ str_err err).

(** [TaskTakeSnapshot._handle].  The [try] gives [None] when the handler
    has already put the text event and returns. *)
Definition TaskTakeSnapshot_handle (ev : GetPicEvent) : M World unit :=
  w <- get ;;
  let cam := cam w in
  let channel := on_demand_channel w in
  taken <-
    try_except
      (r <- on_device (take_snapshot channel (pic_resize ev)) ;; ret (Some r))
      (fun _ => true)
      (fun err =>
         put (SendTextOutboundEvent SEND_TEXT (snapshot_failure_text cam err)
                (pic_message ev)) ;;
         ret None) ;;
  match taken with
  | None => ret tt
  | Some (img, create_ts) =>
      w' <- get ;;
      put (SnapshotOutboundEvent (pic_event ev) img create_ts
             (snapshots_taken (device w')) (pic_resize ev) (pic_message ev)
             cam (nbytes img))
  end.

(** [TaskRecordVideoGif._handle] *)
Definition TaskRecordVideoGif_handle (ev : GetVideoEvent) : M World unit :=
  on_device (start_videogif_record (video_message ev) (video_rewind ev)).

(** The [try] of [TaskAlarmConf._handle] and [TaskStreamConf._handle]: the
    value of [text] after it. *)
Definition start_or_stop (service_type : ServiceType)
    (service_name : ServiceName) (state : bool) : M World (option string) :=
  try_except
    ((if state
      then on_device (service_manager_start service_type service_name)
      else on_device (service_manager_stop service_type service_name)) ;;
     ret None)
    is_ServiceRuntimeError
    (fun err => ret (Some (Alarm.str err))).

(** [TaskAlarmConf._handle] *)
Definition TaskAlarmConf_handle (ev : AlertConfEvent) : M World unit :=
  w <- get ;;
  let cam := cam w in
  let service_type := alert_service_type ev in
  let service_name := alert_service_name ev in
  let state := alert_state ev in
  text <- start_or_stop service_type service_name state ;;
  put (AlarmConfOutboundEvent (alert_event ev) service_type service_name
         (alert_state ev) cam (alert_message ev) text).

(** [TaskStreamConf._handle] *)
Definition TaskStreamConf_handle (ev : StreamEvent) : M World unit :=
  log ;;
  w <- get ;;
  let cam := cam w in
  let service_type := stream_service_type ev in
  let service_name := stream_type ev in
  let state := stream_state ev in
  text <- start_or_stop service_type service_name state ;;
  put (StreamOutboundEvent (stream_event ev) service_type (stream_type ev)
         (stream_state ev) cam (stream_message ev) text).

(** [TaskIrcutFilterConf._handle] *)
Definition TaskIrcutFilterConf_handle (ev : IrcutConfEvent) : M World unit :=
  on_device (set_ircut_filter (ircut_filter_type ev)) ;;
  put (SendTextOutboundEvent SEND_TEXT
         (bold ("IrcutFilter set to " ++ String "034"%char ""
                ++ IrcutFilterType_value (ircut_filter_type ev)
                ++ String "034"%char ""))
         (ircut_message ev)).

(** The events a handler added to the queue. *)
Definition added (w w' : World) : list OutboundEvent :=
  skipn (List.length (result_queue w)) (result_queue w').

End Handlers.

End Handlers.

(* ====================================================================== *)
(** * Concrete cameras, devices and files *)
(* ====================================================================== *)

Module Scenario.

Definition cam1 : HikvisionCam :=
  {| cam_id := "cam_1"; cam_description := "Front door";
     cam_hashtag := "#cam_1"; cam_is_behind_nvr := false;
     cam_dvr_local_storage_path := "/data/dvr" |}.

Definition cam_nvr : HikvisionCam :=
  {| cam_id := "cam_2"; cam_description := "Yard";
     cam_hashtag := "#cam_2"; cam_is_behind_nvr := true;
     cam_dvr_local_storage_path := "/data/dvr" |}.

(** ** Detection triggers *)

Inductive Trigger : Type :=
| Motion
| LineCrossing
| Intrusion.

Definition trigger_name (t : Trigger) : string :=
  match t with
  | Motion => "Motion Detection"
  | LineCrossing => "Line Crossing Detection"
  | Intrusion => "Intrusion Detection"
  end.

Definition three_triggers : Alarm.Constants :=
  {| Alarm.DetectionType := Trigger;
     Alarm.ALARM_TRIGGERS := [Motion; LineCrossing; Intrusion];
     Alarm.DETECTION_SWITCH_MAP_name := trigger_name |}.

(** A camera that accepts every switch and answers "OK". *)
Definition api_ok : @Alarm.HikvisionAPI three_triggers :=
  {| Alarm.Api := unit;
     Alarm.switch := fun _ _ a => (Return (Some "OK"), a) |}.

(** A camera that refuses every switch. *)
Definition api_down : @Alarm.HikvisionAPI three_triggers :=
  {| Alarm.Api := unit;
     Alarm.switch := fun _ _ a => (Raise (HikvisionAPIError "timeout"), a) |}.

(** A camera that accepts a given number of switches and refuses the next
    one, after which it accepts again. *)
Definition api_flaky : @Alarm.HikvisionAPI three_triggers :=
  {| Alarm.Api := option nat;
     Alarm.switch := fun _ _ a =>
       match a with
       | Some O => (Raise (HikvisionAPIError "timeout"), None)
       | Some (S n) => (Return None, Some n)
       | None => (Return None, None)
       end |}.

(** Motion and line crossing are enabled in the configuration. *)
Definition two_enabled (t : Trigger) : bool :=
  match t with
  | Motion | LineCrossing => true
  | Intrusion => false
  end.

Definition service_on (c : HikvisionCam) (is_started : bool)
    : @Alarm.AlarmService three_triggers :=
  @Alarm.Build_AlarmService three_triggers c two_enabled 15 0 is_started.

Definition alarm_ok (c : HikvisionCam) (is_started : bool)
    : @Alarm.World _ api_ok :=
  @Alarm.Build_World _ api_ok (service_on c is_started) tt [].

Definition alarm_down : @Alarm.World _ api_down :=
  @Alarm.Build_World _ api_down (service_on cam1 false) tt [].

(** The camera accepts the first switch and refuses the second. *)
Definition alarm_flaky : @Alarm.World _ api_flaky :=
  @Alarm.Build_World _ api_flaky (service_on cam1 false) (Some 1%nat) [].

(** The call that switches trigger [t]. *)
Definition ev_switch (t : Trigger) (st : bool) : @Alarm.Event three_triggers :=
  @Alarm.EvSwitch three_triggers t st.

(** ** A detection toggle *)

Definition toggle_line_crossing
    : @Inbound.DetectionConfEvent three_triggers string string :=
  @Inbound.Build_DetectionConfEvent three_triggers string string
    "CONFIGURE_DETECTION" LineCrossing true "message 42".

Definition handler_world_ok : @Inbound.World _ api_ok string string :=
  @Inbound.Build_World _ api_ok string string (alarm_ok cam1 false) [].

Definition handler_world_down : @Inbound.World _ api_down string string :=
  @Inbound.Build_World _ api_down string string alarm_down [].

(** The event the handler puts on the queue for [toggle_line_crossing]
    when the switch call answered [text]. *)
Definition line_crossing_reply (text : option string)
    : @Inbound.OutboundEvent three_triggers string string :=
  @Inbound.DetectionConfOutboundEvent three_triggers string string
    "CONFIGURE_DETECTION" LineCrossing true cam1 "message 42" text.

(** ** Probe results *)

(** The conversion on the values used below. *)
Definition builtins : FileWrapper.Builtins :=
  {| FileWrapper.int_float := fun v =>
       match v with
       | FileWrapper.VInt z => Return z
       | FileWrapper.VStr s =>
           if String.eqb s "12.500000" then Return 12 else Raise ValueError
       | _ => Raise TypeError
       end |}.

Definition video_stream (fields : list (string * FileWrapper.pyval))
    : FileWrapper.pyval :=
  FileWrapper.VDict (("codec_type", FileWrapper.VStr "video") :: fields).

Definition audio_stream : FileWrapper.pyval :=
  FileWrapper.VDict [("codec_type", FileWrapper.VStr "audio")].

Definition probe_of (fmt : list (string * FileWrapper.pyval))
    (streams : list FileWrapper.pyval) : FileWrapper.pyval :=
  FileWrapper.VDict
    [("streams", FileWrapper.VList streams); ("format", FileWrapper.VDict fmt)].

Definition with_duration : list (string * FileWrapper.pyval) :=
  [("duration", FileWrapper.VStr "12.500000")].

Definition probe_good : FileWrapper.pyval :=
  probe_of with_duration
    [audio_stream;
     video_stream [("width", FileWrapper.VInt 1280);
                   ("height", FileWrapper.VInt 720)]].

Definition probe_empty : FileWrapper.pyval := FileWrapper.VDict [].

Definition probe_no_duration : FileWrapper.pyval :=
  probe_of []
    [video_stream [("width", FileWrapper.VInt 1280);
                   ("height", FileWrapper.VInt 720)]].

(** The only video stream has no height. *)
Definition probe_no_height : FileWrapper.pyval :=
  probe_of with_duration
    [audio_stream; video_stream [("width", FileWrapper.VInt 1280)]].

(** The only video stream has no width. *)
Definition probe_no_width : FileWrapper.pyval :=
  probe_of with_duration
    [video_stream [("height", FileWrapper.VInt 720)]].

(** No video stream at all. *)
Definition probe_audio_only : FileWrapper.pyval :=
  probe_of with_duration [audio_stream].

(** ** Files, disks and chat clients *)

(** The attributes [DvrFile(filename, lock_count, cam1)] starts with. *)
Definition new_file (filename : string) (lock_count : Z)
    : FileWrapper.DvrFile :=
  {| FileWrapper._filename := filename;
     FileWrapper._lock_count := lock_count;
     FileWrapper._cam := cam1;
     FileWrapper._storage_path := FileWrapper.PathOf "/data/dvr";
     FileWrapper._full_path :=
       FileWrapper.PathJoin (FileWrapper.PathOf "/data/dvr") filename;
     FileWrapper._thumbnail :=
       FileWrapper.PathJoin (FileWrapper.PathOf "/data/dvr")
         (filename ++ "-thumb.jpg");
     FileWrapper._duration := FileWrapper.VNone;
     FileWrapper._width := FileWrapper.VNone;
     FileWrapper._height := FileWrapper.VNone;
     FileWrapper._probe_ctx := FileWrapper.VNone;
     FileWrapper._is_broken := false |}.

Definition file_a : FileWrapper.DvrFile := new_file "a.mp4" 2.
Definition file_b : FileWrapper.DvrFile := new_file "b.mp4" 1.
Definition file_broken : FileWrapper.DvrFile :=
  FileWrapper.set_is_broken true (new_file "c.mp4" 2).

(** Files 0, 1 and 2 of the store. *)
Definition store (i : nat) : FileWrapper.DvrFile :=
  match i with
  | 0%nat => file_a
  | 1%nat => file_b
  | _ => file_broken
  end.

(** A disk on which every DVR file is a regular file of 1000 bytes and no
    thumbnail was written. *)
Definition disk_full : FileWrapper.FS :=
  fun p =>
    match p with
    | FileWrapper.PathJoin _ fname =>
        if String.eqb fname "a.mp4" || String.eqb fname "b.mp4"
           || String.eqb fname "c.mp4"
        then Some 1000 else None
    | _ => None
    end.

(** A disk on which a.mp4 is missing and b.mp4 has no bytes. *)
Definition disk_bad : FileWrapper.FS :=
  fun p =>
    match p with
    | FileWrapper.PathJoin _ fname =>
        if String.eqb fname "b.mp4" then Some 0
        else if String.eqb fname "c.mp4" then Some 1000
        else None
    | _ => None
    end.

(** A chat client whose [send_video] always fails. *)
Definition bot_down : Telegram.CameraBot :=
  {| Telegram.Net := unit;
     Telegram.send_chat_action := fun _ n => (Return tt, n);
     Telegram.send_video := fun _ n => (Raise (OtherError "network down"), n) |}.

(** A chat client that always delivers. *)
Definition bot_ok : Telegram.CameraBot :=
  {| Telegram.Net := unit;
     Telegram.send_chat_action := fun _ n => (Return tt, n);
     Telegram.send_video := fun _ n => (Return tt, n) |}.

(** A chat client whose [send_video] fails a given number of times and
    delivers from then on. *)
Definition bot_flaky : Telegram.CameraBot :=
  {| Telegram.Net := nat;
     Telegram.send_chat_action := fun _ n => (Return tt, n);
     Telegram.send_video := fun _ n =>
       match n with
       | O => (Return tt, O)
       | S n' => (Raise (OtherError "network down"), n')
       end |}.

Definition task1 : Telegram.TelegramDvrUploadTask :=
  {| Telegram.task_cam := cam1; Telegram.task_conf_group_id := -100 |}.

Definition upload_world_down : @Telegram.World bot_down :=
  @Telegram.Build_World bot_down store disk_full tt [].

Definition upload_world_ok (d : FileWrapper.FS) : @Telegram.World bot_ok :=
  @Telegram.Build_World bot_ok store d tt [].

Definition upload_world_flaky (failures : nat) : @Telegram.World bot_flaky :=
  @Telegram.Build_World bot_flaky store disk_full failures [].

(** The calls of one upload attempt for file 0 (a.mp4) on [disk_full]. *)
Definition send_video_a : Telegram.SendVideo :=
  {| Telegram.chat_id := -100;
     Telegram.caption := "Video from Front door #cam_1";
     Telegram.video := FileWrapper.full_path file_a;
     Telegram.file_name := "a.mp4";
     Telegram.duration := FileWrapper.VInt 0;
     Telegram.height := FileWrapper.VInt 0;
     Telegram.width := FileWrapper.VInt 0;
     Telegram.thumb := None;
     Telegram.supports_streaming := true |}.

Definition attempt_a : list Telegram.Event :=
  [Telegram.EvIsFile (FileWrapper.full_path file_a);
   Telegram.EvStat (FileWrapper.full_path file_a);
   Telegram.EvSendChatAction (-100);
   Telegram.EvIsFile (FileWrapper._thumbnail file_a);
   Telegram.EvSendVideo send_video_a].

(** ** A camera for the other handlers *)

(** Events and messages are named by strings, an image is its bytes, and
    [bold] wraps its argument in a tag. *)
Definition environment : Handlers.Environment :=
  {| Handlers.EventType := string;
     Handlers.SEND_TEXT := "SEND_TEXT";
     Handlers.Message := string;
     Handlers.ServiceType := string;
     Handlers.ServiceName := string;
     Handlers.IrcutFilterType := bool;
     Handlers.IrcutFilterType_value := fun on => if on then "day" else "night";
     Handlers.Image := string;
     Handlers.nbytes := fun img => Z.of_nat (String.length img);
     Handlers.bold := fun text => "<b>" ++ text ++ "</b>" |}.

(** A camera that is online or not, counts its snapshots, and whose service
    manager hands [start] and [stop] to the alarm service of [alarm.py] on a
    device that accepts every switch. *)
Definition camera_state : Type := (@Alarm.World _ api_ok * (bool * Z))%type.

Definition camera_take_snapshot (channel : Z) (resize : bool)
    (c : camera_state) : outcome (string * Z) * camera_state :=
  let '(a, (online, n)) := c in
  if online then (Return ("JPEG", 1700000000), (a, (online, n + 1)))
  else (Raise (OtherError "camera offline"), c).

Definition camera_set_ircut_filter (filter_type : bool) (c : camera_state)
    : outcome unit * camera_state :=
  if fst (snd c) then (Return tt, c)
  else (Raise (HikvisionAPIError "timeout"), c).

Definition camera_start (service_type service_name : string)
    (c : camera_state) : outcome unit * camera_state :=
  let '(o, a) := Alarm.start (fst c) in (o, (a, snd c)).

Definition camera_stop (service_type service_name : string)
    (c : camera_state) : outcome unit * camera_state :=
  let '(o, a) := Alarm.stop (fst c) in (o, (a, snd c)).

Definition camera : @Handlers.Camera environment :=
  @Handlers.Build_Camera environment camera_state
    camera_take_snapshot
    (fun c => snd (snd c))
    (fun _ _ c => (Return tt, c))
    camera_set_ircut_filter
    camera_start
    camera_stop.

(** The text of the exceptions of this scenario: the message for the
    classes that carry one, the quoted key for a [KeyError]. *)
Definition exception_text : Handlers.ExceptionText :=
  {| Handlers.str_err := fun e =>
       match e with
       | KeyError key => "'" ++ key ++ "'"
       | _ => Alarm.str e
       end |}.

Definition handlers_world (online : bool) : @Handlers.World _ camera :=
  @Handlers.Build_World _ camera cam1 101
    (alarm_ok cam1 false, (online, 7)) [].

Definition get_pic : @Handlers.GetPicEvent environment :=
  @Handlers.Build_GetPicEvent environment "TAKE_SNAPSHOT" false "message 7".

Definition alarm_on : @Handlers.AlertConfEvent environment :=
  @Handlers.Build_AlertConfEvent environment "CONFIGURE_ALARM" "alarm"
    "alarm" true "message 8".

End Scenario.

(** Closes a conjunction of closed equations by evaluation. *)
Ltac by_evaluation :=
  repeat match goal with |- _ /\ _ => split end; vm_compute; reflexivity.

(** Unfolds the monad's combinators in the goal. *)
Ltac run_py :=
  unfold bind, modify, get, lift, ret, raise, log, try_except, zoom; simpl.

(* ====================================================================== *)
(** * Properties of the DVR file wrapper *)
(* ====================================================================== *)

Module FileWrapperSpec.
Import FileWrapper.

(** ** Construction *)

Lemma init_accepts (filename : string) (n : Z) (c : HikvisionCam) :
  0 < n ->
  exists f, __init__ filename n c = Return f
            /\ _lock_count f = n /\ _is_broken f = false
            /\ _duration f = VNone /\ _width f = VNone /\ _height f = VNone.
Proof.
  intros Hn. unfold __init__.
  destruct (Z.leb_spec n 0) as [Hle | _]; [lia |].
  eexists. split; [reflexivity |]. simpl. repeat split.
Qed.

(** C9. Building a [DvrFile] with a lock count of zero or less raises;
    with a positive lock count it returns a file that stores exactly the
    lock count it was given. *)
Theorem init_lock_count (filename : string) (n : Z) (c : HikvisionCam) :
  (n <= 0 ->
     exists msg, __init__ filename n c = Raise (RuntimeError msg))
  /\ (0 < n ->
     exists f, __init__ filename n c = Return f /\ lock_count f = n).
Proof.
  split.
  - intros Hn. unfold __init__.
    destruct (Z.leb_spec n 0) as [_ | Hgt]; [| lia].
    eexists. reflexivity.
  - intros Hn.
    destruct (init_accepts filename n c Hn) as (f & Hf & Hlock & _).
    exists f. split; [exact Hf | exact Hlock].
Qed.

Lemma init_lock_count_witness :
  (exists msg, __init__ "a.mp4" 0 Scenario.cam1 = Raise (RuntimeError msg))
  /\ (exists f, __init__ "a.mp4" 2 Scenario.cam1 = Return f
                /\ lock_count f = 2).
Proof.
  split.
  - apply (proj1 (init_lock_count "a.mp4" 0 Scenario.cam1)). lia.
  - apply (proj2 (init_lock_count "a.mp4" 2 Scenario.cam1)). lia.
Defined.

Example init_builds_file_a :
  __init__ "a.mp4" 2 Scenario.cam1 = Return Scenario.file_a.
Proof. reflexivity. Qed.

Example init_rejects_negative :
  __init__ "a.mp4" (-3) Scenario.cam1
  = Raise (RuntimeError "Lock count cannot be lower or equal 0").
Proof. reflexivity. Qed.

(** ** The lock count *)

Lemma decrement_lock_count_value (f : DvrFile) :
  lock_count (decrement_lock_count f)
  = if lock_count f >? 0 then lock_count f - 1 else lock_count f.
Proof.
  unfold decrement_lock_count, lock_count.
  destruct (_lock_count f >? 0); reflexivity.
Qed.

Lemma decrement_at_zero (f : DvrFile) :
  lock_count f = 0 -> decrement_lock_count f = f.
Proof.
  unfold decrement_lock_count, lock_count. intros ->. reflexivity.
Qed.

Lemma decrement_keeps_nonneg (f : DvrFile) :
  0 <= lock_count f -> 0 <= lock_count (decrement_lock_count f).
Proof.
  intros Hf. rewrite decrement_lock_count_value.
  destruct (Z.gtb_spec (lock_count f) 0); lia.
Qed.

Lemma decrements_keep_nonneg (k : nat) :
  forall f, 0 <= lock_count f -> 0 <= lock_count (decrements k f).
Proof.
  induction k as [| k IH]; intros f Hf; simpl.
  - exact Hf.
  - apply IH, decrement_keeps_nonneg, Hf.
Qed.

(** After [k] decrements the count is what is left of the first one, and
    never below zero. *)
Lemma decrements_value (k : nat) :
  forall f, 0 <= lock_count f ->
    lock_count (decrements k f) = Z.max 0 (lock_count f - Z.of_nat k).
Proof.
  induction k as [| k IH]; intros f Hf.
  - simpl. lia.
  - cbn [decrements]. rewrite IH by (apply decrement_keeps_nonneg, Hf).
    rewrite decrement_lock_count_value.
    destruct (Z.gtb_spec (lock_count f) 0); lia.
Qed.

Lemma is_locked_iff (f : DvrFile) :
  is_locked f = false <-> lock_count f = 0.
Proof.
  unfold is_locked, lock_count.
  destruct (Z.eqb_spec (_lock_count f) 0) as [E | E]; simpl; split;
    intros; congruence.
Qed.

(** C4. On a file built with a positive lock count, whatever the number of
    [decrement_lock_count] calls, the count is never negative, a decrement
    at zero leaves the file as it is, and [is_locked] is false exactly when
    the count is zero. *)
Theorem lock_count_never_negative (filename : string) (n : Z)
    (c : HikvisionCam) (f : DvrFile) (k : nat) :
  __init__ filename n c = Return f ->
  0 <= lock_count (decrements k f)
  /\ (lock_count (decrements k f) = 0 ->
      decrement_lock_count (decrements k f) = decrements k f)
  /\ (is_locked (decrements k f) = false <-> lock_count (decrements k f) = 0).
Proof.
  intros Hinit.
  assert (Hpos : 0 <= lock_count f).
  { unfold __init__ in Hinit.
    destruct (Z.leb_spec n 0) as [| Hgt]; [discriminate |].
    injection Hinit as <-. unfold lock_count. simpl. lia. }
  split; [| split].
  - apply decrements_keep_nonneg, Hpos.
  - apply decrement_at_zero.
  - apply is_locked_iff.
Qed.

Lemma lock_count_never_negative_witness :
  __init__ "a.mp4" 2 Scenario.cam1 = Return Scenario.file_a
  /\ 0 <= lock_count (decrements 5 Scenario.file_a)
  /\ (lock_count (decrements 5 Scenario.file_a) = 0 ->
      decrement_lock_count (decrements 5 Scenario.file_a)
      = decrements 5 Scenario.file_a)
  /\ (is_locked (decrements 5 Scenario.file_a) = false
      <-> lock_count (decrements 5 Scenario.file_a) = 0).
Proof.
  split; [reflexivity |].
  apply (lock_count_never_negative "a.mp4" 2 Scenario.cam1 Scenario.file_a 5).
  reflexivity.
Defined.

Example file_a_unlocked_after_two :
  lock_count (decrements 1 Scenario.file_a) = 1
  /\ is_locked (decrements 1 Scenario.file_a) = true
  /\ lock_count (decrements 2 Scenario.file_a) = 0
  /\ is_locked (decrements 2 Scenario.file_a) = false
  /\ lock_count (decrements 3 Scenario.file_a) = 0.
Proof. repeat split. Qed.

(** ** Probing *)

Section ProbeSpec.
Context `{Builtins}.

Lemma mark_as_broken_run (f : DvrFile) :
  _mark_as_broken f = (Return tt, set_is_broken true f).
Proof. reflexivity. Qed.

(** An empty probe result: the file is marked broken and nothing else is
    touched but the stored probe result. *)
Lemma probe_empty_run (probe : pyval) (f : DvrFile) :
  truthy probe = false ->
  _get_probe_ctx probe f
  = (Return tt, set_is_broken true (set_probe_ctx probe f)).
Proof.
  intros Hfalsy. unfold _get_probe_ctx. run_py.
  rewrite Hfalsy. reflexivity.
Qed.

(** The guarded block stops at the duration lookup. *)
Lemma probe_no_duration_run (probe : pyval) (f : DvrFile)
    (vs : list pyval) (key : string) :
  truthy probe = true ->
  video_streams_of probe = Return vs ->
  format_duration probe = Raise (KeyError key) ->
  _get_probe_ctx probe f
  = (Return tt, set_is_broken true (set_probe_ctx probe f)).
Proof.
  intros Htruthy Hvs Hdur. unfold _get_probe_ctx, extract_metadata. run_py.
  rewrite Htruthy, Hvs. simpl. rewrite Hdur. reflexivity.
Qed.

(** The guarded block stops at the height lookup, after the duration was
    assigned. *)
Lemma probe_no_height_run (probe : pyval) (f : DvrFile)
    (s : pyval) (vs : list pyval) (d : pyval) (z : Z) (key : string) :
  truthy probe = true ->
  video_streams_of probe = Return (s :: vs) ->
  format_duration probe = Return d ->
  int_float d = Return z ->
  getitem s "height" = Raise (KeyError key) ->
  _get_probe_ctx probe f
  = (Return tt,
     set_is_broken true (set_duration (VInt z) (set_probe_ctx probe f))).
Proof.
  intros Htruthy Hvs Hdur Hz Hh. unfold _get_probe_ctx, extract_metadata.
  run_py. rewrite Htruthy, Hvs. simpl. rewrite Hdur, Hz. simpl.
  rewrite Hh. reflexivity.
Qed.

(** The guarded block stops at the width lookup, after the duration and the
    height were assigned. *)
Lemma probe_no_width_run (probe : pyval) (f : DvrFile)
    (s : pyval) (vs : list pyval) (d : pyval) (z : Z) (h : pyval)
    (key : string) :
  truthy probe = true ->
  video_streams_of probe = Return (s :: vs) ->
  format_duration probe = Return d ->
  int_float d = Return z ->
  getitem s "height" = Return h ->
  getitem s "width" = Raise (KeyError key) ->
  _get_probe_ctx probe f
  = (Return tt,
     set_is_broken true
       (set_height h (set_duration (VInt z) (set_probe_ctx probe f)))).
Proof.
  intros Htruthy Hvs Hdur Hz Hh Hw. unfold _get_probe_ctx, extract_metadata.
  run_py. rewrite Htruthy, Hvs. simpl. rewrite Hdur, Hz. simpl.
  rewrite Hh. simpl. rewrite Hw. reflexivity.
Qed.

(** A probe result with everything in place: the three attributes are set
    and the file is not marked broken. *)
Lemma probe_complete_run (probe : pyval) (f : DvrFile)
    (s : pyval) (vs : list pyval) (d : pyval) (z : Z) (h w : pyval) :
  truthy probe = true ->
  video_streams_of probe = Return (s :: vs) ->
  format_duration probe = Return d ->
  int_float d = Return z ->
  getitem s "height" = Return h ->
  getitem s "width" = Return w ->
  _get_probe_ctx probe f
  = (Return tt,
     set_width w
       (set_height h (set_duration (VInt z) (set_probe_ctx probe f)))).
Proof.
  intros Htruthy Hvs Hdur Hz Hh Hw. unfold _get_probe_ctx, extract_metadata.
  run_py. rewrite Htruthy, Hvs. simpl. rewrite Hdur, Hz. simpl.
  rewrite Hh. simpl. rewrite Hw. reflexivity.
Qed.

(** No video stream: [video_streams[0]] raises [IndexError], which
    [except KeyError] does not catch.  The exception leaves
    [_get_probe_ctx] with the duration assigned and the file not marked
    broken. *)
Lemma probe_no_video_stream_run (probe : pyval) (f : DvrFile)
    (d : pyval) (z : Z) :
  truthy probe = true ->
  video_streams_of probe = Return [] ->
  format_duration probe = Return d ->
  int_float d = Return z ->
  _get_probe_ctx probe f
  = (Raise IndexError, set_duration (VInt z) (set_probe_ctx probe f)).
Proof.
  intros Htruthy Hvs Hdur Hz. unfold _get_probe_ctx, extract_metadata.
  run_py. rewrite Htruthy, Hvs. simpl. rewrite Hdur, Hz. reflexivity.
Qed.

(** C3, as the code has it. On a file with no metadata stored:
    (a) an empty probe result marks the file broken and leaves duration,
    width and height unset;
    (b) a probe result that is not empty, whose list of video streams can
    be built (['streams'] is there and every stream has a ['codec_type']),
    and whose [format]/[duration] lookup raises [KeyError], marks the file
    broken and leaves the three unset;
    (c) when the list of video streams can be built and is not empty, the
    duration is there and converts to [z], and the first video stream has
    no ['height'], the file is marked broken with width and height unset
    and the duration [z];
    (d) when moreover the first video stream has the height [h] but no
    ['width'], the file is marked broken with the width unset, the duration
    [z] and the height [h].
    In each case [_get_probe_ctx] returns. *)
Theorem probe_failure_marks_broken (probe : pyval) (f : DvrFile) :
  metadata_unset f ->
  (truthy probe = false ->
     exists f', _get_probe_ctx probe f = (Return tt, f')
       /\ is_broken f' = true /\ metadata_unset f')
  /\ (forall vs key,
       truthy probe = true ->
       video_streams_of probe = Return vs ->
       format_duration probe = Raise (KeyError key) ->
       exists f', _get_probe_ctx probe f = (Return tt, f')
         /\ is_broken f' = true /\ metadata_unset f')
  /\ (forall s vs d z key,
       truthy probe = true ->
       video_streams_of probe = Return (s :: vs) ->
       format_duration probe = Return d ->
       int_float d = Return z ->
       getitem s "height" = Raise (KeyError key) ->
       exists f', _get_probe_ctx probe f = (Return tt, f')
         /\ is_broken f' = true
         /\ duration f' = VInt z /\ width f' = VNone /\ height f' = VNone)
  /\ (forall s vs d z h key,
       truthy probe = true ->
       video_streams_of probe = Return (s :: vs) ->
       format_duration probe = Return d ->
       int_float d = Return z ->
       getitem s "height" = Return h ->
       getitem s "width" = Raise (KeyError key) ->
       exists f', _get_probe_ctx probe f = (Return tt, f')
         /\ is_broken f' = true
         /\ duration f' = VInt z /\ width f' = VNone /\ height f' = h).
Proof.
  intros (Hd & Hw & Hh). unfold duration, width, height in *.
  split; [| split; [| split]].
  - intros Hfalsy. eexists. split; [apply probe_empty_run, Hfalsy |].
    unfold metadata_unset, duration, width, height. simpl. auto.
  - intros vs key Htruthy Hvs Hdur. eexists.
    split; [eapply probe_no_duration_run; eassumption |].
    unfold metadata_unset, duration, width, height. simpl. auto.
  - intros s vs d z key Htruthy Hvs Hdur Hz Hheight. eexists.
    split; [eapply probe_no_height_run; eassumption |]. simpl. auto.
  - intros s vs d z h key Htruthy Hvs Hdur Hz Hheight Hwidth. eexists.
    split; [eapply probe_no_width_run; eassumption |]. simpl. auto.
Qed.

End ProbeSpec.

Lemma probe_failure_marks_broken_witness :
  metadata_unset Scenario.file_a
  /\ (exists f',
        @_get_probe_ctx Scenario.builtins Scenario.probe_empty Scenario.file_a
        = (Return tt, f')
        /\ is_broken f' = true /\ metadata_unset f')
  /\ (exists f',
        @_get_probe_ctx Scenario.builtins Scenario.probe_no_duration
          Scenario.file_a = (Return tt, f')
        /\ is_broken f' = true /\ metadata_unset f')
  /\ (exists f',
        @_get_probe_ctx Scenario.builtins Scenario.probe_no_height
          Scenario.file_a = (Return tt, f')
        /\ is_broken f' = true
        /\ duration f' = VInt 12 /\ width f' = VNone /\ height f' = VNone)
  /\ (exists f',
        @_get_probe_ctx Scenario.builtins Scenario.probe_no_width
          Scenario.file_a = (Return tt, f')
        /\ is_broken f' = true
        /\ duration f' = VInt 12 /\ width f' = VNone
        /\ height f' = VInt 720).
Proof.
  assert (Hunset : metadata_unset Scenario.file_a) by (repeat split).
  split; [exact Hunset |].
  split; [| split; [| split]].
  - apply (proj1 (@probe_failure_marks_broken Scenario.builtins
                    Scenario.probe_empty Scenario.file_a Hunset)).
    reflexivity.
  - apply (proj1 (proj2 (@probe_failure_marks_broken Scenario.builtins
                    Scenario.probe_no_duration Scenario.file_a Hunset))
             [Scenario.video_stream [("width", VInt 1280); ("height", VInt 720)]]
             "duration"); reflexivity.
  - apply (proj1 (proj2 (proj2 (@probe_failure_marks_broken Scenario.builtins
                    Scenario.probe_no_height Scenario.file_a Hunset)))
             (Scenario.video_stream [("width", VInt 1280)]) []
             (VStr "12.500000") 12 "height"); reflexivity.
  - apply (proj2 (proj2 (proj2 (@probe_failure_marks_broken Scenario.builtins
                    Scenario.probe_no_width Scenario.file_a Hunset)))
             (Scenario.video_stream [("height", VInt 720)]) []
             (VStr "12.500000") 12 (VInt 720) "width"); reflexivity.
Defined.

(** C3 as the specification words it fails on this input: the only video
    stream of the probe result has no height, the lookup fails and the file
    is marked broken, but the duration read before the lookup stays. *)
Lemma probe_failure_keeps_duration :
  let f' :=
    snd (@_get_probe_ctx Scenario.builtins Scenario.probe_no_height
           Scenario.file_a) in
  metadata_unset Scenario.file_a
  /\ video_streams_of Scenario.probe_no_height
     = Return [Scenario.video_stream [("width", VInt 1280)]]
  /\ getitem (Scenario.video_stream [("width", VInt 1280)]) "height"
     = Raise (KeyError "height")
  /\ is_broken f' = true
  /\ duration f' = VInt 12
  /\ ~ (is_broken f' = true /\ metadata_unset f').
Proof.
  cbv zeta. repeat split; try reflexivity.
  intros (_ & Hduration & _). vm_compute in Hduration. discriminate.
Qed.

(** A probe result with an audio stream only: the [IndexError] leaves
    [_get_probe_ctx], the file is not marked broken and the duration is
    stored. *)
Example probe_audio_only_not_marked_broken :
  exists f',
    @_get_probe_ctx Scenario.builtins Scenario.probe_audio_only
      Scenario.file_a = (Raise IndexError, f')
    /\ is_broken f' = false
    /\ duration f' = VInt 12.
Proof. eexists. split; [reflexivity |]. split; reflexivity. Qed.

Example probe_good_sets_metadata :
  exists f',
    @_get_probe_ctx Scenario.builtins Scenario.probe_good Scenario.file_a
    = (Return tt, f')
    /\ is_broken f' = false
    /\ duration f' = VInt 12
    /\ width f' = VInt 1280 /\ height f' = VInt 720.
Proof. eexists. split; [reflexivity |]. repeat split. Qed.

(** ** Beyond the failure cases: what a probe can and cannot do *)

(** Takes apart every [match] on an outcome, a list or a boolean test in the
    goal. *)
Ltac split_cases :=
  repeat (match goal with
          | |- context [match ?x with _ => _ end] =>
              lazymatch x with
              | context [match _ with _ => _ end] => fail
              | _ => destruct x eqn:?
              end
          end; cbn).

Section LifeSpec.
Context `{Builtins}.

Lemma select_video_skips (pre : list pyval) (s : pyval) (post vs : list pyval) :
  Forall (fun x => exists c, getitem x "codec_type" = Return c
                             /\ eq_str c "video" = false) pre ->
  (exists c, getitem s "codec_type" = Return c /\ eq_str c "video" = true) ->
  select_video post = Return vs ->
  select_video (pre ++ s :: post) = Return (s :: vs).
Proof.
  intros Hpre (c & Hc & Hvideo) Hpost.
  induction Hpre as [| x pre (cx & Hcx & Hnot) _ IH]; simpl.
  - rewrite Hc, Hpost, Hvideo. reflexivity.
  - rewrite Hcx, IH, Hnot. reflexivity.
Qed.

Lemma select_video_returns (post : list pyval) :
  Forall (fun x => exists c, getitem x "codec_type" = Return c) post ->
  exists vs, select_video post = Return vs.
Proof.
  induction 1 as [| x post (c & Hc) _ (vs & IH)]; simpl.
  - now exists [].
  - rewrite Hc, IH. eexists. reflexivity.
Qed.

(** X5. The height and width stored are those of the first stream whose
    [codec_type] is ['video'], whatever streams come before it; with a
    duration that converts, the probe returns with the three attributes
    assigned and with the broken flag as it found it, so a file that was
    not marked broken is not marked by this probe. *)
Theorem probe_reads_first_video_stream (probe : pyval) (f : DvrFile)
    (pre : list pyval) (s : pyval) (post : list pyval)
    (d : pyval) (z : Z) (h w : pyval) :
  truthy probe = true ->
  getitem probe "streams" = Return (VList (pre ++ s :: post)) ->
  Forall (fun x => exists c, getitem x "codec_type" = Return c
                             /\ eq_str c "video" = false) pre ->
  (exists c, getitem s "codec_type" = Return c /\ eq_str c "video" = true) ->
  Forall (fun x => exists c, getitem x "codec_type" = Return c) post ->
  format_duration probe = Return d ->
  int_float d = Return z ->
  getitem s "height" = Return h ->
  getitem s "width" = Return w ->
  exists f',
    _get_probe_ctx probe f = (Return tt, f')
    /\ f' = set_width w
              (set_height h (set_duration (VInt z) (set_probe_ctx probe f)))
    /\ duration f' = VInt z /\ height f' = h /\ width f' = w
    /\ is_broken f' = is_broken f
    /\ (is_broken f = false -> is_broken f' = false).
Proof.
  intros Htruthy Hstreams Hpre Hs Hpost Hdur Hz Hh Hw.
  destruct (select_video_returns post Hpost) as (vs & Hvs).
  eexists. split.
  - apply (probe_complete_run probe f s vs d z h w); try assumption.
    unfold video_streams_of. rewrite Hstreams. simpl.
    now apply select_video_skips.
  - repeat split. intros Hf. exact Hf.
Qed.

(** X4. A file that a probe returns from without marking it broken has had its
    duration, height and width assigned from the probe result. *)
Theorem probe_unbroken_is_complete (probe : pyval) (f f' : DvrFile) :
  _get_probe_ctx probe f = (Return tt, f') ->
  is_broken f' = false ->
  exists s vs d z h w,
    video_streams_of probe = Return (s :: vs)
    /\ format_duration probe = Return d
    /\ int_float d = Return z
    /\ getitem s "height" = Return h
    /\ getitem s "width" = Return w
    /\ duration f' = VInt z /\ height f' = h /\ width f' = w.
Proof.
  unfold _get_probe_ctx, extract_metadata, _mark_as_broken, is_broken.
  run_py. intros Hrun Hbroken. revert Hrun.
  assert (Hmarked : forall (o : outcome unit) (g : DvrFile),
             (o, set_is_broken true g) = (Return tt, f') ->
             exists s vs d z h w,
               video_streams_of probe = Return (s :: vs)
               /\ format_duration probe = Return d
               /\ int_float d = Return z
               /\ getitem s "height" = Return h
               /\ getitem s "width" = Return w
               /\ duration f' = VInt z /\ height f' = h /\ width f' = w).
  { intros o g [= _ <-]. discriminate. }
  clear Hbroken.
  destruct (truthy probe); cbn [negb]; [| apply Hmarked].
  destruct (video_streams_of probe) as [vstreams | e]; cbn;
    [| discriminate].
  destruct (format_duration probe) as [d | e]; cbn;
    [| destruct (is_KeyError e); [apply Hmarked | discriminate]].
  destruct (int_float d) as [z | e] eqn:Hz; cbn;
    [| destruct (is_KeyError e); [apply Hmarked | discriminate]].
  destruct vstreams as [| s vs]; cbn; [discriminate |].
  destruct (getitem s "height") as [h | e] eqn:Hh; cbn;
    [| destruct (is_KeyError e); [apply Hmarked | discriminate]].
  destruct (getitem s "width") as [w | e] eqn:Hw; cbn;
    [| destruct (is_KeyError e); [apply Hmarked | discriminate]].
  intros [= <-]. exists s, vs, d, z, h, w.
  repeat split; first [reflexivity | assumption].
Qed.

(** X6. When [_get_probe_ctx] raises, it has not marked the file broken, and it
    has not assigned the width. *)
Theorem probe_raise_does_not_mark (probe : pyval) (f f' : DvrFile) (e : exn) :
  _get_probe_ctx probe f = (Raise e, f') ->
  is_broken f' = is_broken f /\ width f' = width f
  /\ lock_count f' = lock_count f.
Proof.
  unfold _get_probe_ctx, extract_metadata, _mark_as_broken, is_broken,
    width, lock_count.
  run_py. destruct (truthy probe); cbn [negb]; [| discriminate].
  destruct (video_streams_of probe) as [vstreams | e0]; cbn;
    [| intros [= _ <-]; repeat split].
  destruct (format_duration probe) as [d | e0]; cbn;
    [| destruct (is_KeyError e0); [discriminate | intros [= _ <-];
                                                  repeat split]].
  destruct (int_float d) as [z | e0]; cbn;
    [| destruct (is_KeyError e0); [discriminate | intros [= _ <-];
                                                  repeat split]].
  destruct vstreams as [| s vs]; cbn; [intros [= _ <-]; repeat split |].
  destruct (getitem s "height") as [h | e0]; cbn;
    [| destruct (is_KeyError e0); [discriminate | intros [= _ <-];
                                                  repeat split]].
  destruct (getitem s "width") as [w | e0]; cbn;
    [discriminate
    | destruct (is_KeyError e0); [discriminate | intros [= _ <-];
                                                 repeat split]].
Qed.

(** What a probe leaves alone, and what it always does, whatever its
    outcome. *)
Lemma probe_frame (probe : pyval) (f : DvrFile) :
  let f' := snd (_get_probe_ctx probe f) in
  _lock_count f' = _lock_count f
  /\ _filename f' = _filename f
  /\ _full_path f' = _full_path f
  /\ _thumbnail f' = _thumbnail f
  /\ _probe_ctx f' = probe
  /\ (_is_broken f = true -> _is_broken f' = true).
Proof.
  unfold _get_probe_ctx, extract_metadata, _mark_as_broken.
  run_py. split_cases; repeat split; auto.
Qed.

(** X2. Probing and releasing a lock do not interfere: in either order they
    give the same outcome and the same file. *)
Theorem probe_commutes_with_decrement (probe : pyval) (f : DvrFile) :
  _get_probe_ctx probe (decrement_lock_count f)
  = (fst (_get_probe_ctx probe f),
     decrement_lock_count (snd (_get_probe_ctx probe f))).
Proof.
  unfold decrement_lock_count.
  destruct (probe_frame probe f) as (Hlock & _). cbv zeta in Hlock.
  rewrite Hlock.
  destruct (_lock_count f >? 0); [| now destruct (_get_probe_ctx probe f)].
  unfold _get_probe_ctx, extract_metadata, _mark_as_broken.
  run_py. split_cases; reflexivity.
Qed.

Lemma apply_operation_keeps_broken (f : DvrFile) (op : Operation) :
  is_broken f = true -> is_broken (apply_operation f op) = true.
Proof.
  intros Hbroken. destruct op as [probe |]; cbn.
  - now apply (probe_frame probe f).
  - unfold decrement_lock_count. now destruct (_lock_count f >? 0).
Qed.

(** X1. Once a file is marked broken it stays marked, whatever probes and lock
    releases follow. *)
Theorem broken_stays_broken (ops : list Operation) (f : DvrFile) :
  is_broken f = true -> is_broken (apply_operations ops f) = true.
Proof.
  revert f. induction ops as [| op ops IH]; intros f Hbroken.
  - exact Hbroken.
  - cbn. apply IH, apply_operation_keeps_broken, Hbroken.
Qed.

(** X3. Probes never move the lock count: after any operations it is what the
    releases among them leave of it, and never below zero. *)
Theorem lock_count_after_operations (ops : list Operation) (f : DvrFile) :
  0 <= lock_count f ->
  lock_count (apply_operations ops f)
  = Z.max 0 (lock_count f - Z.of_nat (releases ops)).
Proof.
  revert f. induction ops as [| op ops IH]; intros f Hf.
  - cbn. lia.
  - cbn [apply_operations fold_left].
    change (fold_left apply_operation ops (apply_operation f op))
      with (apply_operations ops (apply_operation f op)).
    destruct op as [probe |].
    + assert (Hsame : lock_count (apply_operation f (Probe probe))
                      = lock_count f)
        by (apply (probe_frame probe f)).
      rewrite IH by (rewrite Hsame; exact Hf).
      rewrite Hsame. reflexivity.
    + cbn [apply_operation releases].
      rewrite IH by (apply decrement_keeps_nonneg, Hf).
      rewrite decrement_lock_count_value.
      destruct (Z.gtb_spec (lock_count f) 0); lia.
Qed.

End LifeSpec.

Lemma probe_reads_first_video_stream_witness :
  exists f',
    @_get_probe_ctx Scenario.builtins Scenario.probe_good Scenario.file_a
    = (Return tt, f')
    /\ duration f' = VInt 12 /\ height f' = VInt 720
    /\ width f' = VInt 1280 /\ is_broken f' = false.
Proof.
  destruct (@probe_reads_first_video_stream Scenario.builtins
              Scenario.probe_good Scenario.file_a
              [Scenario.audio_stream]
              (Scenario.video_stream [("width", VInt 1280);
                                      ("height", VInt 720)])
              [] (VStr "12.500000") 12 (VInt 720) (VInt 1280))
    as (f' & Hrun & _ & Hd & Hh & Hw & _ & Hunbroken);
    try reflexivity.
  - constructor; [| constructor].
    exists (VStr "audio"). split; reflexivity.
  - exists (VStr "video"). split; reflexivity.
  - constructor.
  - exists f'. split; [exact Hrun |].
    split; [exact Hd |]. split; [exact Hh |]. split; [exact Hw |].
    apply Hunbroken. reflexivity.
Defined.

Lemma probe_unbroken_is_complete_witness :
  exists s vs d z h w,
    video_streams_of Scenario.probe_good = Return (s :: vs)
    /\ format_duration Scenario.probe_good = Return d
    /\ @int_float Scenario.builtins d = Return z
    /\ getitem s "height" = Return h
    /\ getitem s "width" = Return w
    /\ duration (snd (@_get_probe_ctx Scenario.builtins Scenario.probe_good
                        Scenario.file_a)) = VInt z
    /\ height (snd (@_get_probe_ctx Scenario.builtins Scenario.probe_good
                      Scenario.file_a)) = h
    /\ width (snd (@_get_probe_ctx Scenario.builtins Scenario.probe_good
                     Scenario.file_a)) = w.
Proof.
  apply (@probe_unbroken_is_complete Scenario.builtins Scenario.probe_good
           Scenario.file_a); reflexivity.
Defined.

(** A probe result without ['streams']: the [KeyError] of the comprehension
    is outside the [try]. *)
Lemma probe_raise_does_not_mark_witness :
  @_get_probe_ctx Scenario.builtins
    (VDict [("format", VDict Scenario.with_duration)]) Scenario.file_a
  = (Raise (KeyError "streams"),
     set_probe_ctx (VDict [("format", VDict Scenario.with_duration)])
       Scenario.file_a)
  /\ is_broken
       (set_probe_ctx (VDict [("format", VDict Scenario.with_duration)])
          Scenario.file_a) = is_broken Scenario.file_a.
Proof.
  split; [reflexivity |].
  apply (@probe_raise_does_not_mark Scenario.builtins
           (VDict [("format", VDict Scenario.with_duration)])
           Scenario.file_a _ (KeyError "streams")).
  reflexivity.
Defined.

Lemma broken_stays_broken_witness :
  is_broken Scenario.file_broken = true
  /\ is_broken
       (@apply_operations Scenario.builtins
          [Probe Scenario.probe_good; Decrement; Probe Scenario.probe_empty]
          Scenario.file_broken) = true.
Proof.
  split; [reflexivity |].
  apply (@broken_stays_broken Scenario.builtins). reflexivity.
Defined.

Lemma lock_count_after_operations_witness :
  lock_count
    (@apply_operations Scenario.builtins
       [Decrement; Probe Scenario.probe_good; Decrement; Decrement]
       Scenario.file_a) = 0.
Proof.
  rewrite (@lock_count_after_operations Scenario.builtins); [reflexivity |].
  unfold lock_count. simpl. lia.
Defined.

End FileWrapperSpec.

(* ====================================================================== *)
(** * Properties of the alarm service *)
(* ====================================================================== *)

Module AlarmSpec.
Import Alarm.
Local Open Scope list_scope.

Section ServiceSpec.
Context `{HikvisionAPI}.

(** ** [trigger_switch] *)

Lemma trigger_switch_run (t : DetectionType) (st : bool) (w : World) :
  trigger_switch t st w
  = match switch t st (api w) with
    | (Return txt, a) => (Return txt, switched t st a w)
    | (Raise (HikvisionAPIError msg), a) =>
        (Raise (ServiceRuntimeError
                  (DETECTION_SWITCH_MAP_name t
                   ++ " Switch encountered an error: " ++ msg)),
         switched t st a w)
    | (Raise e, a) => (Raise e, switched t st a w)
    end.
Proof.
  unfold trigger_switch, api_switch, emit, switched. run_py.
  destruct (switch t st (api w)) as [[txt | e] a]; [reflexivity |].
  destruct e; reflexivity.
Qed.

Lemma trigger_switch_frame (t : DetectionType) (st : bool) (w w' : World)
    (o : outcome (option string)) :
  trigger_switch t st w = (o, w') ->
  service w' = service w /\ trace w' = trace w ++ [EvSwitch t st].
Proof.
  rewrite trigger_switch_run.
  destruct (switch t st (api w)) as [[txt | e] a].
  - intros [= _ <-]. split; reflexivity.
  - destruct e; intros [= _ <-]; split; reflexivity.
Qed.

(** A camera error comes out of [trigger_switch] as a
    [ServiceRuntimeError]. *)
Lemma trigger_switch_api_error (t : DetectionType) (st : bool) (w : World)
    (msg : string) (a : Api) :
  switch t st (api w) = (Raise (HikvisionAPIError msg), a) ->
  trigger_switch t st w
  = (Raise (ServiceRuntimeError
              (DETECTION_SWITCH_MAP_name t
               ++ " Switch encountered an error: " ++ msg)),
     switched t st a w).
Proof. intros Hsw. rewrite trigger_switch_run, Hsw. reflexivity. Qed.

Lemma trigger_switch_ok (t : DetectionType) (st : bool) (w : World)
    (txt : option string) (a : Api) :
  switch t st (api w) = (Return txt, a) ->
  trigger_switch t st w = (Return txt, switched t st a w).
Proof. intros Hsw. rewrite trigger_switch_run, Hsw. reflexivity. Qed.

(** ** [_enable_triggers_on_camera] *)

Lemma enable_triggers_cons (t : DetectionType) (rest : list DetectionType)
    (w : World) :
  enable_triggers (t :: rest) w
  = if _conf (service w) t then
      match trigger_switch t true w with
      | (Return _, w1) => enable_triggers rest w1
      | (Raise e, w1) => (Raise e, w1)
      end
    else enable_triggers rest w.
Proof.
  cbn [enable_triggers]. unfold bind at 1. unfold get at 1. cbv beta iota.
  unfold bind at 1. destruct (_conf (service w) t).
  - unfold bind at 1. destruct (trigger_switch t true w) as [[txt | e] w1];
      reflexivity.
  - reflexivity.
Qed.

(** Whatever the loop ends with, it leaves the service as it was and adds
    switch calls only: one for every enabled trigger if it returns, and the
    ones up to the call that raised otherwise. *)
Lemma enable_triggers_frame (ts : list DetectionType) :
  forall (w w' : World) (o : outcome unit),
    enable_triggers ts w = (o, w') ->
    service w' = service w
    /\ exists called,
         trace w' = trace w ++ enabling called
         /\ match o with
            | Return _ => called = filter (_conf (service w)) ts
            | Raise _ =>
                called <> []
                /\ exists skipped,
                     filter (_conf (service w)) ts = called ++ skipped
            end.
Proof.
  induction ts as [| t rest IH]; intros w w' o Hrun.
  - cbn in Hrun. injection Hrun as <- <-. split; [reflexivity |].
    exists []. split; [simpl; now rewrite app_nil_r | reflexivity].
  - rewrite enable_triggers_cons in Hrun. cbn [filter].
    destruct (_conf (service w) t) eqn:Henabled.
    + destruct (trigger_switch t true w) as [[txt | e] w1] eqn:Hsw.
      * apply trigger_switch_frame in Hsw as [Hsvc Htr].
        apply IH in Hrun as (Hsvc' & called & Htr' & Ho).
        split; [congruence |].
        exists (t :: called). split.
        { rewrite Htr', Htr. unfold enabling. simpl.
          now rewrite <- app_assoc. }
        rewrite Hsvc in Ho. destruct o as [[] | e].
        -- now rewrite Ho.
        -- destruct Ho as (_ & skipped & Hsk). split; [discriminate |].
           exists skipped. now rewrite Hsk.
      * injection Hrun as <- <-.
        apply trigger_switch_frame in Hsw as [Hsvc Htr].
        split; [exact Hsvc |].
        exists [t]. split; [exact Htr |]. split; [discriminate |].
        exists (filter (_conf (service w)) rest). reflexivity.
    + apply IH in Hrun as (Hsvc' & called & Htr' & Ho).
      split; [exact Hsvc' |]. exists called. split; [exact Htr' | exact Ho].
Qed.

(** When the loop raises, a [trigger_switch] call on an enabled trigger
    raised that exception. *)
Lemma enable_triggers_raise_inv (ts : list DetectionType) :
  forall (w w' : World) (e : exn),
    enable_triggers ts w = (Raise e, w') ->
    exists t w0,
      In t ts /\ _conf (service w) t = true
      /\ trigger_switch t true w0 = (Raise e, w').
Proof.
  induction ts as [| t rest IH]; intros w w' e Hrun.
  - discriminate.
  - rewrite enable_triggers_cons in Hrun.
    destruct (_conf (service w) t) eqn:Henabled.
    + destruct (trigger_switch t true w) as [[txt | e1] w1] eqn:Hsw.
      * pose proof (trigger_switch_frame _ _ _ _ _ Hsw) as [Hsvc _].
        apply IH in Hrun as (t' & w0 & Hin & Hconf & Hraise).
        exists t', w0. rewrite Hsvc in Hconf.
        split; [now right |]. split; assumption.
      * injection Hrun as <- <-. exists t, w.
        split; [now left |]. split; assumption.
    + apply IH in Hrun as (t' & w0 & Hin & Hconf & Hraise).
      exists t', w0. split; [now right |]. split; assumption.
Qed.

Lemma enable_triggers_returns (ts : list DetectionType) :
  camera_accepts ->
  forall w, exists w', enable_triggers ts w = (Return tt, w').
Proof.
  intros Hacc. induction ts as [| t rest IH]; intros w.
  - exists w. reflexivity.
  - rewrite enable_triggers_cons. destruct (_conf (service w) t).
    + destruct (Hacc t (api w)) as (txt & a' & Hsw).
      rewrite (trigger_switch_ok _ _ _ _ _ Hsw). apply IH.
    + apply IH.
Qed.

(** ** [start] and [stop] *)

Lemma start_run (w : World) :
  start w
  = if cam_is_behind_nvr (cam (service w)) then (Return tt, w)
    else if started (service w) then
      (Raise (ServiceRuntimeError "Alarm (alert) mode already started"), w)
    else
      match _enable_triggers_on_camera w with
      | (Return _, w1) => (Return tt, started_world w1)
      | (Raise e, w1) => (Raise e, w1)
      end.
Proof.
  unfold start. unfold bind at 1. unfold get at 1. cbv beta iota.
  destruct (cam_is_behind_nvr (cam (service w))); [reflexivity |].
  unfold bind at 1. unfold get at 1. cbv beta iota.
  destruct (started (service w)); [reflexivity |].
  unfold bind at 1.
  destruct (_enable_triggers_on_camera w) as [[[] | e] w1]; reflexivity.
Qed.

Lemma stop_run (w : World) :
  stop w
  = if started (service w) then
      (Return tt,
       {| service := set_started false (service w); api := api w;
          trace := trace w ++ [EvStarted false] |})
    else (Raise (ServiceRuntimeError "Alarm alert mode already stopped"), w).
Proof.
  unfold stop. run_py. destruct (started (service w)); reflexivity.
Qed.

Lemma enabling_no_create_task (ts : list DetectionType) :
  filter is_create_task (enabling ts) = [].
Proof.
  unfold enabling. induction ts as [| t ts IH]; [reflexivity | exact IH].
Qed.

(** The calls the loop has made when the camera refuses trigger [t]: the
    enable calls before it, then the one for [t]. *)
Lemma enable_triggers_refused_trace (ts : list DetectionType) :
  forall w t e,
    first_failure (_conf (service w)) ts (api w) = Some (t, e) ->
    exists w',
      enable_triggers ts w = (Raise (switch_error t e), w')
      /\ exists called,
           trace w' = trace w ++ enabling called ++ [EvSwitch t true].
Proof.
  induction ts as [| t0 rest IH]; intros w t e Hsome.
  - discriminate.
  - rewrite enable_triggers_cons. cbn [first_failure] in Hsome.
    destruct (_conf (service w) t0); [| now apply IH].
    rewrite trigger_switch_run.
    destruct (switch t0 true (api w)) as [[txt | e0] a].
    + destruct (IH (switched t0 true a w) t e Hsome)
        as (w' & Hrun & called & Htrace).
      exists w'. split; [exact Hrun |]. exists (t0 :: called).
      rewrite Htrace. cbn [switched trace enabling map].
      now rewrite <- !app_assoc.
    + injection Hsome as <- <-. eexists.
      split; [destruct e0; reflexivity |].
      exists []. destruct e0; reflexivity.
Qed.

Lemma started_world_started (w : World) :
  started (service (started_world w)) = true.
Proof. reflexivity. Qed.

(** C6. On a camera behind an NVR, [start] returns without an error and
    leaves the world as it found it: no switch call, no monitoring task, the
    started flag untouched. *)
Theorem start_behind_nvr_is_noop (w : World) :
  cam_is_behind_nvr (cam (service w)) = true ->
  start w = (Return tt, w).
Proof. intros Hnvr. rewrite start_run, Hnvr. reflexivity. Qed.

(** What the loop of [_enable_triggers_on_camera] does follows from what
    the camera answers: it returns when the camera answers every enable
    call, and raises what [trigger_switch] makes of the first exception of
    the camera. *)
Lemma enable_triggers_answered (ts : list DetectionType) :
  forall w,
    first_failure (_conf (service w)) ts (api w) = None ->
    exists w', enable_triggers ts w = (Return tt, w').
Proof.
  induction ts as [| t rest IH]; intros w Hnone.
  - exists w. reflexivity.
  - rewrite enable_triggers_cons. cbn [first_failure] in Hnone.
    destruct (_conf (service w) t); [| now apply IH].
    rewrite trigger_switch_run.
    destruct (switch t true (api w)) as [[txt | e] a]; [| discriminate].
    apply (IH (switched t true a w)). exact Hnone.
Qed.

Lemma enable_triggers_refused (ts : list DetectionType) :
  forall w t e,
    first_failure (_conf (service w)) ts (api w) = Some (t, e) ->
    exists w', enable_triggers ts w = (Raise (switch_error t e), w').
Proof.
  induction ts as [| t0 rest IH]; intros w t e Hsome.
  - discriminate.
  - rewrite enable_triggers_cons. cbn [first_failure] in Hsome.
    destruct (_conf (service w) t0); [| now apply IH].
    rewrite trigger_switch_run.
    destruct (switch t0 true (api w)) as [[txt | e0] a].
    + apply (IH (switched t0 true a w)). exact Hsome.
    + injection Hsome as <- <-. eexists. destruct e0; reflexivity.
Qed.

(** C5. On a camera that is not behind an NVR: [start] on a started
    service and [stop] on a stopped one raise a [ServiceRuntimeError] and
    change nothing; [stop] on a started service returns with the flag
    cleared, and a second [stop] then raises; [start] on a stopped service
    returns with the flag set when the camera answers every enable call of
    the enabled triggers, and a second [start] then raises; when the camera
    answers one of those calls with an exception, [start] raises what
    [trigger_switch] makes of it and the flag stays cleared. *)
Theorem start_stop_transitions (w : World) :
  cam_is_behind_nvr (cam (service w)) = false ->
  (started (service w) = true ->
     start w
     = (Raise (ServiceRuntimeError "Alarm (alert) mode already started"), w)
     /\ exists w',
          stop w = (Return tt, w')
          /\ started (service w') = false
          /\ stop w'
             = (Raise (ServiceRuntimeError "Alarm alert mode already stopped"),
                w'))
  /\ (started (service w) = false ->
     stop w
     = (Raise (ServiceRuntimeError "Alarm alert mode already stopped"), w)
     /\ (first_failure (_conf (service w)) ALARM_TRIGGERS (api w) = None ->
         exists w',
           start w = (Return tt, w')
           /\ started (service w') = true
           /\ start w'
              = (Raise
                   (ServiceRuntimeError "Alarm (alert) mode already started"),
                 w'))
     /\ (forall t e,
           first_failure (_conf (service w)) ALARM_TRIGGERS (api w)
           = Some (t, e) ->
           exists w',
             start w = (Raise (switch_error t e), w')
             /\ started (service w') = false)).
Proof.
  intros Hnvr. split; intros Hstarted.
  - split.
    + rewrite start_run, Hnvr, Hstarted. reflexivity.
    + eexists. split; [rewrite stop_run, Hstarted; reflexivity |].
      split; [reflexivity |]. rewrite stop_run. reflexivity.
  - split; [| split].
    + rewrite stop_run, Hstarted. reflexivity.
    + intros Hnone.
      destruct (enable_triggers_answered ALARM_TRIGGERS w Hnone)
        as (w1 & Hrun).
      pose proof (enable_triggers_frame _ _ _ _ Hrun) as (Hsvc & _).
      exists (started_world w1). split; [| split].
      * rewrite start_run, Hnvr, Hstarted.
        unfold _enable_triggers_on_camera. rewrite Hrun. reflexivity.
      * reflexivity.
      * rewrite start_run. cbn [started_world service set_started cam].
        rewrite Hsvc, Hnvr. reflexivity.
    + intros t e Hsome.
      destruct (enable_triggers_refused ALARM_TRIGGERS w t e Hsome)
        as (w1 & Hrun).
      pose proof (enable_triggers_frame _ _ _ _ Hrun) as (Hsvc & _).
      exists w1. split.
      * rewrite start_run, Hnvr, Hstarted.
        unfold _enable_triggers_on_camera. rewrite Hrun. reflexivity.
      * now rewrite Hsvc.
Qed.

(** C7. When [start] returns on a camera that is not behind an NVR and
    whose configuration enables [k] triggers, the calls it added are [k]
    switch calls, one per enabled trigger in the order of [ALARM_TRIGGERS],
    then the flag being set, then the monitoring task being created. *)
Theorem start_enables_triggers_first (w w' : World) (k : nat) :
  cam_is_behind_nvr (cam (service w)) = false ->
  List.length (filter (_conf (service w)) ALARM_TRIGGERS) = k ->
  start w = (Return tt, w') ->
  exists calls,
    List.length calls = k
    /\ calls = enabling (filter (_conf (service w)) ALARM_TRIGGERS)
    /\ forallb is_switch calls = true
    /\ trace w'
       = trace w ++ calls ++ [EvStarted true; EvCreateTask (task_name w)]
    /\ started (service w') = true.
Proof.
  intros Hnvr Hk Hstart. rewrite start_run, Hnvr in Hstart.
  destruct (started (service w)); [discriminate |].
  destruct (_enable_triggers_on_camera w) as [[[] | e] w1] eqn:Hrun;
    [| discriminate].
  injection Hstart as <-.
  apply enable_triggers_frame in Hrun as (Hsvc & called & Htrace & ->).
  exists (enabling (filter (_conf (service w)) ALARM_TRIGGERS)).
  split; [unfold enabling; now rewrite length_map |].
  split; [reflexivity |].
  split.
  { unfold enabling. apply forallb_forall. intros ev Hin.
    apply in_map_iff in Hin as (t & <- & _). reflexivity. }
  split; [| reflexivity].
  cbn [started_world trace]. unfold task_name. rewrite Htrace, Hsvc.
  rewrite <- !app_assoc. reflexivity.
Qed.

(** C10. On a stopped service of a camera that is not behind an NVR, when
    the camera answers one of the enable calls of [start] with an exception
    ([t] being the first trigger it refuses, with [e]): [start] raises what
    [trigger_switch] makes of [e]; the service is as it was, flag cleared;
    the calls added are switch calls only, the last of them the one for
    [t], so the flag was not set and no task was created; and the next
    [start] does not meet the already-started guard but goes on to enable
    the triggers again, and returns with the flag set when the camera then
    answers every call. *)
Theorem start_failure_leaves_stopped (w : World) (t : DetectionType)
    (e : exn) :
  cam_is_behind_nvr (cam (service w)) = false ->
  started (service w) = false ->
  first_failure (_conf (service w)) ALARM_TRIGGERS (api w) = Some (t, e) ->
  exists w1,
    start w = (Raise (switch_error t e), w1)
    /\ service w1 = service w
    /\ started (service w1) = false
    /\ (exists called,
          trace w1 = trace w ++ enabling called ++ [EvSwitch t true])
    /\ filter is_create_task (trace w1) = filter is_create_task (trace w)
    /\ start w1
       = match _enable_triggers_on_camera w1 with
         | (Return _, w2) => (Return tt, started_world w2)
         | (Raise e', w2) => (Raise e', w2)
         end
    /\ (first_failure (_conf (service w1)) ALARM_TRIGGERS (api w1) = None ->
        exists w2,
          start w1 = (Return tt, w2) /\ started (service w2) = true).
Proof.
  intros Hnvr Hstopped Hsome.
  destruct (enable_triggers_refused_trace ALARM_TRIGGERS w t e Hsome)
    as (w1 & Hrun & called & Htrace).
  pose proof (enable_triggers_frame _ _ _ _ Hrun) as (Hsvc & _).
  assert (Hnext : start w1
                  = match _enable_triggers_on_camera w1 with
                    | (Return _, w2) => (Return tt, started_world w2)
                    | (Raise e', w2) => (Raise e', w2)
                    end).
  { rewrite start_run, Hsvc, Hnvr, Hstopped. reflexivity. }
  exists w1.
  split; [rewrite start_run, Hnvr, Hstopped;
          unfold _enable_triggers_on_camera; rewrite Hrun; reflexivity |].
  split; [exact Hsvc |].
  split; [now rewrite Hsvc |].
  split; [now exists called |].
  split.
  - rewrite Htrace, !filter_app, enabling_no_create_task. cbn.
    now rewrite app_nil_r.
  - split; [exact Hnext |].
    intros Hnone.
    destruct (enable_triggers_answered ALARM_TRIGGERS w1 Hnone)
      as (w2 & Hrun2).
    exists (started_world w2). split; [| reflexivity].
    rewrite Hnext. unfold _enable_triggers_on_camera. rewrite Hrun2.
    reflexivity.
Qed.

End ServiceSpec.

(** ** The properties on the cameras of [Scenario] *)

Lemma start_behind_nvr_is_noop_witness :
  cam_is_behind_nvr (cam (service (Scenario.alarm_ok Scenario.cam_nvr false)))
  = true
  /\ start (Scenario.alarm_ok Scenario.cam_nvr false)
     = (Return tt, Scenario.alarm_ok Scenario.cam_nvr false).
Proof.
  split; [reflexivity |].
  apply (start_behind_nvr_is_noop (Scenario.alarm_ok Scenario.cam_nvr false)).
  reflexivity.
Defined.

(** C5 as the specification words it fails here: a stopped service on a
    camera that is not behind an NVR, so [start] is a valid transition, but
    the camera refuses the first enable call; [start] raises and the flag is
    not set. *)
Lemma valid_start_refused_by_camera :
  cam_is_behind_nvr (cam (service Scenario.alarm_down)) = false
  /\ started (service Scenario.alarm_down) = false
  /\ (exists w',
        start Scenario.alarm_down
        = (Raise (ServiceRuntimeError
                    "Motion Detection Switch encountered an error: timeout"),
           w')
        /\ started (service w') = false)
  /\ ~ (exists w',
          start Scenario.alarm_down = (Return tt, w')
          /\ started (service w') = true).
Proof.
  split; [reflexivity |]. split; [reflexivity |]. split.
  - exists (snd (start Scenario.alarm_down)). split; reflexivity.
  - intros (w' & Hstart & _). vm_compute in Hstart. discriminate.
Qed.

Lemma start_stop_transitions_witness :
  (start (Scenario.alarm_ok Scenario.cam1 true)
   = (Raise (ServiceRuntimeError "Alarm (alert) mode already started"),
      Scenario.alarm_ok Scenario.cam1 true)
   /\ exists w',
        stop (Scenario.alarm_ok Scenario.cam1 true) = (Return tt, w')
        /\ started (service w') = false
        /\ stop w'
           = (Raise (ServiceRuntimeError "Alarm alert mode already stopped"),
              w'))
  /\ (stop (Scenario.alarm_ok Scenario.cam1 false)
      = (Raise (ServiceRuntimeError "Alarm alert mode already stopped"),
         Scenario.alarm_ok Scenario.cam1 false)
      /\ exists w',
           start (Scenario.alarm_ok Scenario.cam1 false) = (Return tt, w')
           /\ started (service w') = true
           /\ start w'
              = (Raise
                   (ServiceRuntimeError "Alarm (alert) mode already started"),
                 w'))
  /\ (exists w',
        start Scenario.alarm_flaky
        = (Raise (ServiceRuntimeError
                    "Line Crossing Detection Switch encountered an error: timeout"),
           w')
        /\ started (service w') = false).
Proof.
  split; [| split].
  - apply (proj1 (start_stop_transitions
                    (Scenario.alarm_ok Scenario.cam1 true) eq_refl)).
    reflexivity.
  - destruct (proj2 (start_stop_transitions
                       (Scenario.alarm_ok Scenario.cam1 false) eq_refl)
                eq_refl) as (Hstop & Hstart & _).
    split; [exact Hstop | exact (Hstart eq_refl)].
  - destruct (proj2 (start_stop_transitions Scenario.alarm_flaky eq_refl)
                eq_refl) as (_ & _ & Hrefused).
    exact (Hrefused Scenario.LineCrossing (HikvisionAPIError "timeout")
             eq_refl).
Defined.

(** The scenario of the specification: two triggers enabled, two switch
    calls before the flag is set. *)
Lemma start_enables_triggers_first_witness :
  exists w',
    start (Scenario.alarm_ok Scenario.cam1 false) = (Return tt, w')
    /\ exists calls,
         List.length calls = 2%nat
         /\ calls
            = enabling
                (filter (_conf (service (Scenario.alarm_ok Scenario.cam1 false)))
                   ALARM_TRIGGERS)
         /\ forallb is_switch calls = true
         /\ trace w'
            = trace (Scenario.alarm_ok Scenario.cam1 false) ++ calls
              ++ [EvStarted true;
                  EvCreateTask
                    (task_name (Scenario.alarm_ok Scenario.cam1 false))]
         /\ started (service w') = true.
Proof.
  exists (snd (start (Scenario.alarm_ok Scenario.cam1 false))).
  split; [reflexivity |].
  apply (start_enables_triggers_first
           (Scenario.alarm_ok Scenario.cam1 false) _ 2);
    reflexivity.
Defined.

Example start_two_triggers_trace :
  exists w',
    start (Scenario.alarm_ok Scenario.cam1 false) = (Return tt, w')
    /\ trace w'
       = [Scenario.ev_switch Scenario.Motion true; Scenario.ev_switch Scenario.LineCrossing true;
          EvStarted true; EvCreateTask "ServiceAlarmMonitoringTask_cam_1"]
    /\ started (service w') = true.
Proof.
  exists (snd (start (Scenario.alarm_ok Scenario.cam1 false))).
  repeat split.
Qed.

(** The camera answers the switch of motion detection and refuses the one
    of line crossing, once. *)
Lemma start_failure_leaves_stopped_witness :
  first_failure (_conf (service Scenario.alarm_flaky)) ALARM_TRIGGERS
    (api Scenario.alarm_flaky)
  = Some (Scenario.LineCrossing, HikvisionAPIError "timeout")
  /\ exists w1 w2,
       start Scenario.alarm_flaky
       = (Raise (ServiceRuntimeError
                   "Line Crossing Detection Switch encountered an error: timeout"),
          w1)
       /\ started (service w1) = false
       /\ trace w1
          = [Scenario.ev_switch Scenario.Motion true;
             Scenario.ev_switch Scenario.LineCrossing true]
       /\ start w1 = (Return tt, w2)
       /\ started (service w2) = true.
Proof.
  split; [reflexivity |].
  destruct (start_failure_leaves_stopped Scenario.alarm_flaky
              Scenario.LineCrossing (HikvisionAPIError "timeout")
              eq_refl eq_refl eq_refl)
    as (w1 & Hstart & Hsvc & Hflag & _ & _ & _ & Hagain).
  assert (Hw1 : w1 = snd (start Scenario.alarm_flaky))
    by (rewrite Hstart; reflexivity).
  destruct Hagain as (w2 & Hstart2 & Hflag2).
  { rewrite Hw1. reflexivity. }
  exists w1, w2.
  split; [exact Hstart |].
  split; [exact Hflag |].
  split; [rewrite Hw1; reflexivity |].
  split; [exact Hstart2 | exact Hflag2].
Defined.

(** ** Beyond start and stop guards *)

Section LifecycleSpec.
Context `{HikvisionAPI}.

(** X7. [trigger_switch] makes one call on the camera whatever comes of it and
    leaves the service alone; the text of the camera is returned as it is, a
    [HikvisionAPIError] comes out as a [ServiceRuntimeError] that names the
    trigger, and any other exception comes out unchanged. *)
Theorem trigger_switch_one_call (t : DetectionType) (st : bool)
    (w w' : World) (o : outcome (option string)) :
  trigger_switch t st w = (o, w') ->
  service w' = service w
  /\ trace w' = trace w ++ [EvSwitch t st]
  /\ api w' = snd (switch t st (api w))
  /\ match fst (switch t st (api w)) with
     | Return txt => o = Return txt
     | Raise (HikvisionAPIError msg) =>
         o = Raise (ServiceRuntimeError
                      (DETECTION_SWITCH_MAP_name t
                       ++ " Switch encountered an error: " ++ msg))
     | Raise e => o = Raise e
     end.
Proof.
  rewrite trigger_switch_run.
  destruct (switch t st (api w)) as [[txt | e] a]; cbn.
  - intros [= <- <-]. repeat split.
  - destruct e; intros [= <- <-]; repeat split.
Qed.

Lemma enable_triggers_none (ts : list DetectionType) (w : World) :
  existsb (_conf (service w)) ts = false ->
  enable_triggers ts w = (Return tt, w).
Proof.
  induction ts as [| t rest IH]; [reflexivity |].
  cbn [existsb]. intros Hnone. apply orb_false_iff in Hnone as [Ht Hrest].
  rewrite enable_triggers_cons, Ht. apply IH, Hrest.
Qed.

(** X8. When no trigger is enabled in the configuration, [start] on a stopped
    service of a camera that is not behind an NVR returns without a single
    call on the camera, even one that would refuse every switch. *)
Theorem start_without_triggers (w : World) :
  cam_is_behind_nvr (cam (service w)) = false ->
  started (service w) = false ->
  enabled_in_conf (service w) = false ->
  start w = (Return tt, started_world w)
  /\ api (started_world w) = api w
  /\ filter is_switch (trace (started_world w)) = filter is_switch (trace w).
Proof.
  intros Hnvr Hstopped Hnone. split; [| split].
  - rewrite start_run, Hnvr, Hstopped. unfold _enable_triggers_on_camera.
    rewrite (enable_triggers_none _ _ Hnone). reflexivity.
  - reflexivity.
  - cbn [started_world trace]. rewrite !filter_app. cbn.
    now rewrite !app_nil_r.
Qed.

(** X9. When [start] raises while enabling the triggers, the switch calls made
    are a first part of the enabled triggers, not empty: the triggers before
    the failing one stay switched on, and the ones after it are not
    tried. *)
Theorem start_failure_is_partial (w w1 : World) (e : exn) :
  cam_is_behind_nvr (cam (service w)) = false ->
  started (service w) = false ->
  start w = (Raise e, w1) ->
  exists called skipped,
    called <> []
    /\ filter (_conf (service w)) ALARM_TRIGGERS = called ++ skipped
    /\ trace w1 = trace w ++ enabling called.
Proof.
  intros Hnvr Hstopped. rewrite start_run, Hnvr, Hstopped.
  destruct (_enable_triggers_on_camera w) as [[[] | e1] w2] eqn:Hrun;
    [discriminate |].
  intros [= <- <-].
  apply enable_triggers_frame in Hrun
    as (_ & called & Htrace & Hne & skipped & Hsplit).
  exists called, skipped. repeat split; assumption.
Qed.

Lemma set_started_back (s : AlarmService) :
  _started s = false -> set_started false (set_started true s) = s.
Proof. destruct s. cbn. now intros ->. Qed.

(** X10. [start] followed by [stop] gives the service back as it was; [stop]
    makes no call on the camera, so the triggers stay switched on, and no
    call about the monitoring task. *)
Theorem start_then_stop (w w1 : World) :
  cam_is_behind_nvr (cam (service w)) = false ->
  start w = (Return tt, w1) ->
  exists w2,
    stop w1 = (Return tt, w2)
    /\ service w2 = service w
    /\ api w2 = api w1
    /\ trace w2 = trace w1 ++ [EvStarted false].
Proof.
  intros Hnvr. rewrite start_run, Hnvr.
  destruct (started (service w)) eqn:Hstopped; [discriminate |].
  destruct (_enable_triggers_on_camera w) as [[[] | e1] w0] eqn:Hrun;
    [| discriminate].
  intros [= <-].
  apply enable_triggers_frame in Hrun as (Hsvc & _).
  eexists. split; [rewrite stop_run; reflexivity |].
  cbn. repeat split.
  rewrite Hsvc. apply set_started_back, Hstopped.
Qed.

(** ** Any sequence of calls *)

Lemma count_app (p : Event -> bool) (evs evs' : list Event) :
  count p (evs ++ evs') = (count p evs + count p evs')%nat.
Proof. unfold count. now rewrite filter_app, length_app. Qed.

Lemma count_enabling (p : Event -> bool) (ts : list DetectionType) :
  (forall t st, p (EvSwitch t st) = false) -> count p (enabling ts) = 0%nat.
Proof.
  intros Hp. unfold count, enabling.
  induction ts as [| t ts IH]; [reflexivity |]. cbn. now rewrite Hp.
Qed.

Lemma after_call_consistent (w : World) (c : Call) :
  consistent w -> consistent (after_call w c).
Proof.
  unfold consistent. intros [Hflag Htask].
  destruct c as [| | t st |]; cbn [after_call].
  - rewrite start_run.
    destruct (cam_is_behind_nvr (cam (service w))); [now split |].
    destruct (started (service w)) eqn:Hstarted; cbn [snd];
      [rewrite Hstarted; now split |].
    destruct (_enable_triggers_on_camera w) as [[[] | e] w1] eqn:Hrun;
      apply enable_triggers_frame in Hrun as (Hsvc & called & Htrace & _);
      cbn [snd started_world service trace set_started started _started].
    + rewrite Htrace, !count_app, !count_enabling by reflexivity.
      change (count is_started_set [EvStarted true]) with 1%nat.
      change (count is_started_clear [EvStarted true]) with 0%nat.
      change (count is_create_task [EvStarted true]) with 0%nat.
      change (count is_started_set [EvCreateTask (task_name w1)]) with 0%nat.
      change (count is_started_clear [EvCreateTask (task_name w1)])
        with 0%nat.
      change (count is_create_task [EvCreateTask (task_name w1)]) with 1%nat.
      lia.
    + rewrite Hsvc, Hstarted.
      rewrite Htrace, !count_app, !count_enabling by reflexivity. lia.
  - rewrite stop_run. destruct (started (service w)) eqn:Hstarted;
      cbn [snd service trace set_started started _started].
    + rewrite !count_app.
      change (count is_started_set [EvStarted false]) with 0%nat.
      change (count is_started_clear [EvStarted false]) with 1%nat.
      change (count is_create_task [EvStarted false]) with 0%nat.
      lia.
    + rewrite Hstarted. now split.
  - destruct (trigger_switch t st w) as [o w'] eqn:Hsw.
    apply trigger_switch_frame in Hsw as [Hsvc Htrace]. cbn [snd].
    rewrite Hsvc, Htrace, !count_app.
    change (count is_started_set [EvSwitch t st]) with 0%nat.
    change (count is_started_clear [EvSwitch t st]) with 0%nat.
    change (count is_create_task [EvSwitch t st]) with 0%nat.
    lia.
  - exact (conj Hflag Htask).
Qed.

(** X11. From a new service on, whatever calls are made and whatever the camera
    answers: the flag was set once more than it was cleared exactly when the
    service is started, and as many monitoring tasks were created as times
    the flag was set. *)
Theorem lifecycle_consistent (conf : DetectionType -> bool) (delay : Z)
    (c : HikvisionCam) (a : Api) (cs : list Call) :
  let w := after_calls cs (new_world conf delay c a) in
  count is_started_set (trace w)
  = (count is_started_clear (trace w)
     + if started (service w) then 1 else 0)%nat
  /\ count is_create_task (trace w) = count is_started_set (trace w).
Proof.
  cbv zeta. change (consistent (after_calls cs (new_world conf delay c a))).
  assert (Hall : forall w, consistent w -> consistent (after_calls cs w)).
  { induction cs as [| c0 cs IH]; intros w Hw; [exact Hw |].
    cbn. apply IH, after_call_consistent, Hw. }
  apply Hall. split; reflexivity.
Qed.

Lemma after_call_alert_count (w : World) (c : Call) :
  alert_count (service (after_call w c))
  = alert_count (service w) + if is_increase c then 1 else 0.
Proof.
  unfold alert_count. destruct c as [| | t st |]; cbn [after_call is_increase].
  - rewrite start_run.
    destruct (cam_is_behind_nvr (cam (service w))); cbn; [lia |].
    destruct (started (service w)); cbn; [lia |].
    destruct (_enable_triggers_on_camera w) as [[[] | e] w1] eqn:Hrun;
      apply enable_triggers_frame in Hrun as (Hsvc & _); cbn;
      rewrite Hsvc; lia.
  - rewrite stop_run. destruct (started (service w)); cbn; lia.
  - destruct (trigger_switch t st w) as [o w'] eqn:Hsw.
    apply trigger_switch_frame in Hsw as [Hsvc _]. cbn. rewrite Hsvc. lia.
  - reflexivity.
Qed.

(** X12. The alert count goes up by one with every [increase_alert_count] and is
    moved by nothing else: [start], [stop] and [trigger_switch] neither
    reset nor change it, whether they return or raise. *)
Theorem alert_count_counts (cs : list Call) (w : World) :
  alert_count (service (after_calls cs w))
  = alert_count (service w)
    + Z.of_nat (List.length (filter is_increase cs)).
Proof.
  revert w. induction cs as [| c cs IH]; intros w.
  - cbn. lia.
  - cbn [after_calls fold_left].
    change (fold_left after_call cs (after_call w c))
      with (after_calls cs (after_call w c)).
    rewrite IH, after_call_alert_count. cbn [filter].
    destruct (is_increase c); cbn [List.length]; lia.
Qed.

End LifecycleSpec.

Lemma start_without_triggers_witness :
  let w := @new_world _ Scenario.api_down (fun _ => false) 15 Scenario.cam1 tt
  in
  start w = (Return tt, started_world w)
  /\ api (started_world w) = api w
  /\ filter is_switch (trace (started_world w)) = filter is_switch (trace w).
Proof.
  apply (@start_without_triggers _ Scenario.api_down); reflexivity.
Defined.

Lemma start_failure_is_partial_witness :
  exists w1 called skipped,
    start Scenario.alarm_flaky
    = (Raise (ServiceRuntimeError
                "Line Crossing Detection Switch encountered an error: timeout"),
       w1)
    /\ called <> []
    /\ filter (_conf (service Scenario.alarm_flaky)) ALARM_TRIGGERS
       = called ++ skipped
    /\ trace w1 = trace Scenario.alarm_flaky ++ enabling called.
Proof.
  exists (snd (start Scenario.alarm_flaky)).
  destruct (start_failure_is_partial Scenario.alarm_flaky
              (snd (start Scenario.alarm_flaky))
              (ServiceRuntimeError
                 "Line Crossing Detection Switch encountered an error: timeout")
              eq_refl eq_refl eq_refl)
    as (called & skipped & Hne & Hsplit & Htrace).
  exists called, skipped. split; [reflexivity |]. repeat split; assumption.
Defined.

Lemma start_then_stop_witness :
  exists w1 w2,
    start (Scenario.alarm_ok Scenario.cam1 false) = (Return tt, w1)
    /\ stop w1 = (Return tt, w2)
    /\ service w2 = service (Scenario.alarm_ok Scenario.cam1 false)
    /\ api w2 = api w1
    /\ trace w2 = trace w1 ++ [EvStarted false].
Proof.
  exists (snd (start (Scenario.alarm_ok Scenario.cam1 false))).
  destruct (start_then_stop (Scenario.alarm_ok Scenario.cam1 false)
              (snd (start (Scenario.alarm_ok Scenario.cam1 false)))
              eq_refl eq_refl)
    as (w2 & Hstop & Hsvc & Hapi & Htrace).
  exists w2. split; [reflexivity |]. repeat split; assumption.
Defined.

Lemma trigger_switch_one_call_witness :
  exists w',
    @trigger_switch Scenario.three_triggers Scenario.api_down
      Scenario.Intrusion false Scenario.alarm_down
    = (Raise (ServiceRuntimeError
                "Intrusion Detection Switch encountered an error: timeout"),
       w')
    /\ service w' = service Scenario.alarm_down
    /\ trace w' = [Scenario.ev_switch Scenario.Intrusion false].
Proof.
  exists (snd (@trigger_switch Scenario.three_triggers Scenario.api_down
                 Scenario.Intrusion false Scenario.alarm_down)).
  split; [reflexivity |].
  destruct (@trigger_switch_one_call Scenario.three_triggers Scenario.api_down
              Scenario.Intrusion false Scenario.alarm_down _ _ eq_refl)
    as (Hsvc & Htrace & _).
  split; [exact Hsvc | exact Htrace].
Defined.

End AlarmSpec.

(* ====================================================================== *)
(** * Properties of the detection handler *)
(* ====================================================================== *)

Module InboundSpec.
Import Inbound.
Local Open Scope list_scope.

Section HandlerSpec.
Context `{Alarm.HikvisionAPI}.
Context {EventType Message : Type}.

(** The handler is the switch call followed, if it returned, by one [put];
    an exception of the switch call leaves the handler. *)
Lemma handle_run (ev : @DetectionConfEvent _ EventType Message)
    (w : @World _ _ EventType Message) :
  handle ev w
  = match Alarm.trigger_switch (type ev) (state ev) (alarm w) with
    | (Return text, a) =>
        (Return tt,
         {| alarm := a;
            result_queue :=
              result_queue w
              ++ [DetectionConfOutboundEvent (event ev) (type ev) (state ev)
                    (Alarm.cam (Alarm.service (alarm w))) (message ev) text]
         |})
    | (Raise e, a) => (Raise e, {| alarm := a; result_queue := result_queue w |})
    end.
Proof.
  unfold handle, TaskDetectionConf_handle, put, set_alarm. run_py.
  destruct (Alarm.trigger_switch (type ev) (state ev) (alarm w))
    as [[text | e] a]; reflexivity.
Qed.

(** When the camera answers, the handler puts exactly one event on the
    queue, with the requested state and the camera's text. *)
Lemma handle_switch_ok (ev : @DetectionConfEvent _ EventType Message)
    (w : @World _ _ EventType Message) (text : option string)
    (a : Alarm.Api) :
  Alarm.switch (type ev) (state ev) (Alarm.api (alarm w)) = (Return text, a) ->
  exists w',
    handle ev w = (Return tt, w')
    /\ result_queue w'
       = result_queue w
         ++ [DetectionConfOutboundEvent (event ev) (type ev) (state ev)
               (Alarm.cam (Alarm.service (alarm w))) (message ev) text].
Proof.
  intros Hsw. rewrite handle_run.
  rewrite (AlarmSpec.trigger_switch_ok _ _ _ _ _ Hsw).
  eexists. split; reflexivity.
Qed.

(** When the camera refuses, the [ServiceRuntimeError] of [trigger_switch]
    leaves the handler and the queue is as it was. *)
Lemma handle_switch_fails (ev : @DetectionConfEvent _ EventType Message)
    (w : @World _ _ EventType Message) (msg : string) (a : Alarm.Api) :
  Alarm.switch (type ev) (state ev) (Alarm.api (alarm w))
  = (Raise (HikvisionAPIError msg), a) ->
  exists w',
    handle ev w
    = (Raise (ServiceRuntimeError
                (Alarm.DETECTION_SWITCH_MAP_name (type ev)
                 ++ " Switch encountered an error: " ++ msg)), w')
    /\ result_queue w' = result_queue w.
Proof.
  intros Hsw. rewrite handle_run.
  rewrite (AlarmSpec.trigger_switch_api_error _ _ _ _ _ Hsw).
  eexists. split; reflexivity.
Qed.

End HandlerSpec.

(** The scenario of the specification: line crossing, state on, the switch
    answers "OK". *)
Example toggle_line_crossing_ok :
  exists w',
    handle Scenario.toggle_line_crossing Scenario.handler_world_ok
    = (Return tt, w')
    /\ result_queue w' = [Scenario.line_crossing_reply (Some "OK"%string)].
Proof.
  exists (snd (handle Scenario.toggle_line_crossing Scenario.handler_world_ok)).
  split; reflexivity.
Qed.

(** C1, on a camera that refuses the switch. The handler ends with the
    [ServiceRuntimeError] of [trigger_switch] and the result queue stays
    empty: no outbound event carries the failure. *)
Theorem toggle_failure_emits_nothing :
  exists w',
    handle Scenario.toggle_line_crossing Scenario.handler_world_down
    = (Raise (ServiceRuntimeError
                "Line Crossing Detection Switch encountered an error: timeout"),
       w')
    /\ result_queue w' = []
    /\ Alarm.trace (alarm w')
       = [Scenario.ev_switch Scenario.LineCrossing true].
Proof.
  exists (snd (handle Scenario.toggle_line_crossing
                 Scenario.handler_world_down)).
  repeat split.
Qed.

End InboundSpec.

(* ====================================================================== *)
(** * Properties of the upload worker *)
(* ====================================================================== *)

Module TelegramSpec.
Import Telegram.
Local Open Scope list_scope.

(** ** The retry decorator *)

Lemma retrying_returns {W A : Type} (n : nat) (body : M W A) (w w' : W)
    (a : A) :
  body w = (Return a, w') -> retrying n body w = (Return a, w').
Proof. intros Hbody. destruct n; simpl; rewrite Hbody; reflexivity. Qed.

Lemma retrying_last {W A : Type} (body : M W A) (w w' : W) (e : exn) :
  body w = (Raise e, w') -> retrying 0 body w = (Raise (RetryError e), w').
Proof. intros Hbody. simpl. rewrite Hbody. reflexivity. Qed.

Lemma retrying_again {W A : Type} (n : nat) (body : M W A) (w w' : W)
    (e : exn) :
  body w = (Raise e, w') -> retrying (S n) body w = retrying n body w'.
Proof. intros Hbody. simpl. rewrite Hbody. reflexivity. Qed.

Section UploadSpec.
Context `{CameraBot}.
Variable self : TelegramDvrUploadTask.

(** ** Validation *)

Lemma validate_file_run (file_ : nat) (w : World) :
  _validate_file file_ w
  = let f := files w file_ in
    let p := FileWrapper.full_path f in
    if negb (FileWrapper.exists_ (disk w) f) then
      (Return false, traced [EvIsFile p] w)
    else if FileWrapper.is_broken f then
      (Return false, traced [EvIsFile p] w)
    else
      match FileWrapper.is_empty (disk w) f with
      | Return empty =>
          (Return (negb empty), traced [EvStat p] (traced [EvIsFile p] w))
      | Raise e => (Raise e, traced [EvStat p] (traced [EvIsFile p] w))
      end.
Proof.
  unfold _validate_file, file_exists, file_is_empty, emit, traced. run_py.
  destruct (FileWrapper.exists_ (disk w) (files w file_));
    cbn [negb files disk net trace]; [| reflexivity].
  destruct (FileWrapper.is_broken (files w file_));
    cbn [files disk net trace]; [reflexivity |].
  destruct (FileWrapper.is_empty (disk w) (files w file_)) as [[|] | e];
    reflexivity.
Qed.

(** A file that fails a check: validation answers [False] after looking at
    the disk once. *)
Lemma validate_file_rejects (file_ : nat) (w : World) :
  fails_validation w file_ ->
  exists w',
    _validate_file file_ w = (Return false, w')
    /\ files w' = files w /\ disk w' = disk w /\ net w' = net w
    /\ (trace w'
        = trace w ++ [EvIsFile (FileWrapper.full_path (files w file_))]
        \/ trace w'
           = trace w ++ [EvIsFile (FileWrapper.full_path (files w file_));
                         EvStat (FileWrapper.full_path (files w file_))]).
Proof.
  intros Hfails. rewrite validate_file_run. cbv zeta.
  destruct (FileWrapper.exists_ (disk w) (files w file_)) eqn:Hexists; simpl.
  - destruct (FileWrapper.is_broken (files w file_)) eqn:Hbroken.
    + eexists. split; [reflexivity |]. repeat split. now left.
    + destruct Hfails as [Hf | [Hf | Hf]]; try congruence.
      rewrite Hf. eexists. split; [reflexivity |]. repeat split.
      right. simpl. now rewrite <- app_assoc.
  - eexists. split; [reflexivity |]. repeat split. now left.
Qed.

Lemma validate_file_accepts (file_ : nat) (w : World) :
  passes_validation w file_ = true ->
  _validate_file file_ w
  = (Return true,
     traced [EvStat (FileWrapper.full_path (files w file_))]
       (traced [EvIsFile (FileWrapper.full_path (files w file_))] w)).
Proof.
  unfold passes_validation. intros Hpass. rewrite validate_file_run. cbv zeta.
  destruct (FileWrapper.exists_ (disk w) (files w file_)); [| discriminate].
  destruct (FileWrapper.is_broken (files w file_)); [discriminate |].
  destruct (FileWrapper.is_empty (disk w) (files w file_)) as [[|] | e];
    try discriminate.
  reflexivity.
Qed.

(** ** One upload *)

Lemma upload_skips_invalid (file_ : nat) (w : World) :
  fails_validation w file_ ->
  exists w',
    _validate_file file_ w = (Return false, w')
    /\ __upload self file_ w = (Return tt, w')
    /\ _upload_video self file_ w = (Return tt, w').
Proof.
  intros Hfails.
  destruct (validate_file_rejects file_ w Hfails) as (w' & Hval & _).
  exists w'. split; [exact Hval |].
  assert (Hup : __upload self file_ w = (Return tt, w')).
  { unfold __upload. unfold bind at 1. rewrite Hval. reflexivity. }
  split; [exact Hup |].
  unfold _upload_video, retry. apply retrying_returns.
  unfold upload_attempt, try_except. rewrite Hup. reflexivity.
Qed.

(** C8. A file that is missing, marked broken or empty: the turn of the
    worker returns; the chat client was not called; the disk was looked at
    in one validation pass only, so nothing was retried; the lock count of
    the file is one less than it was when it was positive (and still zero
    when it was zero), the file being otherwise as it was and the other
    files untouched; and the loop goes on with the rest of the queue. *)
Theorem invalid_file_is_skipped (file_ : nat) (w : World) :
  fails_validation w file_ ->
  exists w',
    process_file self file_ w = (Return tt, w')
    /\ net w' = net w
    /\ filter is_bot_call (trace w') = filter is_bot_call (trace w)
    /\ (trace w'
        = trace w ++ [EvIsFile (FileWrapper.full_path (files w file_))]
        \/ trace w'
           = trace w ++ [EvIsFile (FileWrapper.full_path (files w file_));
                         EvStat (FileWrapper.full_path (files w file_))])
    /\ files w' file_ = FileWrapper.decrement_lock_count (files w file_)
    /\ (0 < FileWrapper.lock_count (files w file_) ->
        FileWrapper.lock_count (files w' file_)
        = FileWrapper.lock_count (files w file_) - 1)
    /\ (FileWrapper.lock_count (files w file_) <= 0 ->
        FileWrapper.lock_count (files w' file_)
        = FileWrapper.lock_count (files w file_))
    /\ FileWrapper.is_broken (files w' file_)
       = FileWrapper.is_broken (files w file_)
    /\ FileWrapper.full_path (files w' file_)
       = FileWrapper.full_path (files w file_)
    /\ (forall i, i <> file_ -> files w' i = files w i)
    /\ (forall rest,
          _process_queue self (file_ :: rest) w = _process_queue self rest w').
Proof.
  intros Hfails.
  destruct (upload_skips_invalid file_ w Hfails) as (w1 & Hval & _ & Hup).
  destruct (validate_file_rejects file_ w Hfails)
    as (w1' & Hval' & Hfiles & Hdisk & Hnet & Htrace).
  assert (w1' = w1) as -> by congruence.
  assert (Hturn : process_file self file_ w
                  = (Return tt,
                     update_file file_ FileWrapper.decrement_lock_count w1)).
  { unfold process_file. unfold bind. rewrite Hup. reflexivity. }
  assert (Hfile : files (update_file file_ FileWrapper.decrement_lock_count w1)
                    file_
                  = FileWrapper.decrement_lock_count (files w file_)).
  { cbn [update_file files]. rewrite Nat.eqb_refl, Hfiles. reflexivity. }
  eexists. split; [exact Hturn |].
  split; [exact Hnet |].
  split.
  { cbn [update_file trace].
    destruct Htrace as [-> | ->]; rewrite filter_app; simpl;
      now rewrite app_nil_r. }
  split; [exact Htrace |].
  split; [exact Hfile |].
  split.
  { intros Hpos. rewrite Hfile.
    unfold FileWrapper.decrement_lock_count, FileWrapper.lock_count in *.
    destruct (Z.gtb_spec (FileWrapper._lock_count (files w file_)) 0);
      [reflexivity | lia]. }
  split.
  { intros Hzero. rewrite Hfile.
    unfold FileWrapper.decrement_lock_count, FileWrapper.lock_count in *.
    destruct (Z.gtb_spec (FileWrapper._lock_count (files w file_)) 0);
      [lia | reflexivity]. }
  split.
  { rewrite Hfile. unfold FileWrapper.decrement_lock_count.
    now destruct (FileWrapper._lock_count (files w file_) >? 0). }
  split.
  { rewrite Hfile. unfold FileWrapper.decrement_lock_count.
    now destruct (FileWrapper._lock_count (files w file_) >? 0). }
  split.
  { intros i Hi. cbn [update_file files].
    destruct (Nat.eqb_spec i file_); [contradiction |].
    now rewrite Hfiles. }
  intros rest. cbn [_process_queue]. unfold bind at 1. rewrite Hturn.
  reflexivity.
Qed.

(** ** A transport that always fails *)

Lemma passes_validation_same (file_ : nat) (w w' : World) :
  files w' = files w -> disk w' = disk w ->
  passes_validation w' file_ = passes_validation w file_.
Proof. intros Hf Hd. unfold passes_validation. now rewrite Hf, Hd. Qed.

Lemma send_video_calls_app (evs evs' : list Event) :
  send_video_calls (evs ++ evs')
  = (send_video_calls evs + send_video_calls evs')%nat.
Proof. unfold send_video_calls. now rewrite filter_app, length_app. Qed.

(** One attempt on a valid file: [send_video] is called once, its exception
    leaves the attempt, and no file object is touched. *)
Lemma upload_attempt_fails (file_ : nat) (w : World) :
  transport_always_fails ->
  passes_validation w file_ = true ->
  exists e w',
    upload_attempt self file_ w = (Raise e, w')
    /\ files w' = files w /\ disk w' = disk w
    /\ send_video_calls (trace w') = S (send_video_calls (trace w)).
Proof.
  intros [Hchat Hvideo] Hpass.
  unfold upload_attempt, try_except, __upload. unfold bind at 1.
  rewrite (validate_file_accepts file_ w Hpass). cbn [negb].
  unfold file_thumbnail, emit, on_net, traced. run_py.
  destruct (Hchat (task_conf_group_id self) (net w)) as (n1 & Hc).
  rewrite Hc. cbn [files disk net trace].
  match goal with
  | |- context [send_video ?args n1] =>
      destruct (Hvideo args n1) as (e & n2 & Hv); rewrite Hv
  end.
  eexists. eexists. split; [reflexivity |].
  cbn [files disk net trace]. repeat split.
  rewrite !send_video_calls_app. cbn. lia.
Qed.

(** The decorated upload on a valid file: attempt after attempt fails, and
    after [n + 1] attempts [RetryError] is raised. *)
Lemma retrying_exhausts (file_ : nat) (n : nat) :
  transport_always_fails ->
  forall w,
    passes_validation w file_ = true ->
    exists e w',
      retrying n (upload_attempt self file_) w = (Raise (RetryError e), w')
      /\ files w' = files w /\ disk w' = disk w
      /\ send_video_calls (trace w') = (S n + send_video_calls (trace w))%nat.
Proof.
  intros Hfail. induction n as [| n IH]; intros w Hpass.
  - destruct (upload_attempt_fails file_ w Hfail Hpass)
      as (e & w1 & Hrun & Hf & Hd & Hcalls).
    exists e, w1. split; [now apply retrying_last |]. now repeat split.
  - destruct (upload_attempt_fails file_ w Hfail Hpass)
      as (e1 & w1 & Hrun & Hf & Hd & Hcalls).
    rewrite (retrying_again _ _ _ _ _ Hrun).
    destruct (IH w1) as (e & w' & Hrest & Hf' & Hd' & Hcalls').
    { now rewrite (passes_validation_same file_ w w1 Hf Hd). }
    exists e, w'. split; [exact Hrest |].
    split; [congruence |]. split; [congruence |]. lia.
Qed.

(** With a transport that always fails, the turn for a valid file makes
    five [send_video] calls and ends in [RetryError], which ends
    [_process_queue] as well: [decrement_lock_count] is not reached, every
    file object is as it was, and the rest of the queue is not taken up. *)
Lemma exhausted_upload_ends_worker (file_ : nat) (rest : list nat)
    (w : World) :
  transport_always_fails ->
  passes_validation w file_ = true ->
  exists e w',
    _upload_video self file_ w = (Raise (RetryError e), w')
    /\ _process_queue self (file_ :: rest) w = (Raise (RetryError e), w')
    /\ files w' = files w
    /\ send_video_calls (trace w') = (5 + send_video_calls (trace w))%nat.
Proof.
  intros Hfail Hpass.
  destruct (retrying_exhausts file_ 4 Hfail w Hpass)
    as (e & w' & Hrun & Hf & _ & Hcalls).
  exists e, w'. split; [exact Hrun |].
  split; [| split; [exact Hf | exact Hcalls]].
  cbn [_process_queue]. unfold bind at 1. unfold process_file.
  unfold bind at 1. unfold _upload_video, retry. cbn [Nat.sub].
  unfold _UPLOAD_RETRY_STOP_AFTER. cbn [Nat.sub]. rewrite Hrun. reflexivity.
Qed.

(** When the upload returns, the turn decrements the lock of the file once
    and the loop goes on. *)
Lemma returned_upload_decrements (file_ : nat) (rest : list nat)
    (w w1 : World) :
  _upload_video self file_ w = (Return tt, w1) ->
  process_file self file_ w
  = (Return tt, update_file file_ FileWrapper.decrement_lock_count w1)
  /\ _process_queue self (file_ :: rest) w
     = _process_queue self rest
         (update_file file_ FileWrapper.decrement_lock_count w1).
Proof.
  intros Hup.
  assert (Hturn : process_file self file_ w
                  = (Return tt,
                     update_file file_ FileWrapper.decrement_lock_count w1)).
  { unfold process_file. unfold bind. rewrite Hup. reflexivity. }
  split; [exact Hturn |].
  cbn [_process_queue]. unfold bind at 1. rewrite Hturn. reflexivity.
Qed.

End UploadSpec.

(** ** The worker on the files of [Scenario] *)

(** File 0 (a.mp4, lock count 2) is missing on [disk_bad]; file 1
    (b.mp4, lock count 1) is there with no bytes. *)
Lemma invalid_file_is_skipped_witness :
  fails_validation (Scenario.upload_world_ok Scenario.disk_bad) 0
  /\ FileWrapper.lock_count
       (files (Scenario.upload_world_ok Scenario.disk_bad) 0) = 2
  /\ exists w',
       process_file Scenario.task1 0
         (Scenario.upload_world_ok Scenario.disk_bad) = (Return tt, w')
       /\ filter is_bot_call (trace w') = []
       /\ FileWrapper.lock_count (files w' 0) = 1
       /\ FileWrapper.lock_count (files w' 1) = 1.
Proof.
  assert (Hfails : fails_validation
                     (Scenario.upload_world_ok Scenario.disk_bad) 0).
  { left. reflexivity. }
  split; [exact Hfails |]. split; [reflexivity |].
  destruct (invalid_file_is_skipped Scenario.task1 0
              (Scenario.upload_world_ok Scenario.disk_bad) Hfails)
    as (w' & Hturn & _ & Hcalls & _ & _ & Hless & _ & _ & _ & Hothers & _).
  exists w'. split; [exact Hturn |].
  split; [exact Hcalls |].
  split; [rewrite Hless; [reflexivity | reflexivity] |].
  rewrite (Hothers 1%nat); [reflexivity | discriminate].
Defined.

Example empty_file_is_skipped :
  exists w',
    process_file Scenario.task1 1
      (Scenario.upload_world_ok Scenario.disk_bad) = (Return tt, w')
    /\ trace w'
       = [EvIsFile (FileWrapper.full_path Scenario.file_b);
          EvStat (FileWrapper.full_path Scenario.file_b)]
    /\ FileWrapper.lock_count (files w' 1) = 0.
Proof.
  exists (snd (process_file Scenario.task1 1
                 (Scenario.upload_world_ok Scenario.disk_bad))).
  by_evaluation.
Qed.

Example missing_file_is_skipped :
  exists w',
    process_file Scenario.task1 0
      (Scenario.upload_world_ok Scenario.disk_bad) = (Return tt, w')
    /\ trace w' = [EvIsFile (FileWrapper.full_path Scenario.file_a)]
    /\ FileWrapper.lock_count (files w' 0) = 1.
Proof.
  exists (snd (process_file Scenario.task1 0
                 (Scenario.upload_world_ok Scenario.disk_bad))).
  by_evaluation.
Qed.

Example broken_file_is_skipped :
  exists w',
    process_file Scenario.task1 2
      (Scenario.upload_world_ok Scenario.disk_bad) = (Return tt, w')
    /\ trace w' = [EvIsFile (FileWrapper.full_path Scenario.file_broken)]
    /\ FileWrapper.lock_count (files w' 2) = 1.
Proof.
  exists (snd (process_file Scenario.task1 2
                 (Scenario.upload_world_ok Scenario.disk_bad))).
  by_evaluation.
Qed.

Lemma bot_down_always_fails : @transport_always_fails Scenario.bot_down.
Proof.
  split.
  - intros g n. exists n. reflexivity.
  - intros args n. exists (OtherError "network down"), n. reflexivity.
Qed.

(** C2, on a chat client whose [send_video] always fails, with files 0 and
    1 queued. Five attempts are made for file 0 and then [RetryError] ends
    [_process_queue]: the lock count of file 0 is still 2, and file 1 is
    never taken from the queue. *)
Theorem always_failing_upload_leaks_lock :
  exists w',
    _process_queue Scenario.task1 [0; 1]%nat Scenario.upload_world_down
    = (Raise (RetryError (OtherError "network down")), w')
    /\ trace w'
       = Scenario.attempt_a ++ Scenario.attempt_a ++ Scenario.attempt_a
         ++ Scenario.attempt_a ++ Scenario.attempt_a
    /\ send_video_calls (trace w') = 5%nat
    /\ FileWrapper.lock_count (files Scenario.upload_world_down 0) = 2
    /\ FileWrapper.lock_count (files w' 0) = 2
    /\ FileWrapper.is_locked (files w' 0) = true
    /\ FileWrapper.lock_count (files w' 1) = 1.
Proof.
  exists (snd (_process_queue Scenario.task1 [0; 1]%nat
                 Scenario.upload_world_down)).
  by_evaluation.
Qed.

(** Two failures and then a delivery: three [send_video] calls for file 0,
    its lock count decremented once, and the loop goes on to file 1. *)
Example flaky_upload_is_retried :
  exists w',
    _process_queue Scenario.task1 [0; 1]%nat (Scenario.upload_world_flaky 2)
    = (Return tt, w')
    /\ send_video_calls (trace w') = 4%nat
    /\ FileWrapper.lock_count (files w' 0) = 1
    /\ FileWrapper.lock_count (files w' 1) = 0.
Proof.
  exists (snd (_process_queue Scenario.task1 [0; 1]%nat
                 (Scenario.upload_world_flaky 2))).
  by_evaluation.
Qed.

(** ** Whatever the transport does *)

Section WorkerSpec.
Context `{CameraBot}.
Variable self : TelegramDvrUploadTask.

Lemma validate_file_frame (file_ : nat) (w : World) :
  exists w',
    _validate_file file_ w = (Return (passes_validation w file_), w')
    /\ files w' = files w /\ disk w' = disk w /\ net w' = net w
    /\ filter is_bot_call (trace w') = filter is_bot_call (trace w)
    /\ send_video_calls (trace w') = send_video_calls (trace w).
Proof.
  rewrite validate_file_run. cbv zeta.
  unfold passes_validation, FileWrapper.exists_, FileWrapper.is_empty,
    FileWrapper.is_file, send_video_calls.
  destruct (disk w (FileWrapper.full_path (files w file_))) as [size |];
    cbn [negb andb].
  - destruct (FileWrapper.is_broken (files w file_)); cbn [negb andb].
    + eexists. split; [reflexivity |]. cbn. rewrite !filter_app. cbn.
      rewrite !app_nil_r. repeat split.
    + eexists. split; [destruct (size =? 0); reflexivity |]. cbn.
      rewrite !filter_app. cbn. rewrite !app_nil_r. repeat split.
  - eexists. split; [reflexivity |]. cbn. rewrite !filter_app. cbn.
    rewrite !app_nil_r. repeat split.
Qed.

(** X13. [_validate_file] never raises: it answers [True] exactly for a file
    that is on disk, not marked broken and not empty, and it neither calls
    the chat client nor changes a file object. *)
Theorem validate_file_decides (file_ : nat) (w : World) :
  exists w',
    _validate_file file_ w = (Return (passes_validation w file_), w')
    /\ files w' = files w /\ disk w' = disk w /\ net w' = net w
    /\ filter is_bot_call (trace w') = filter is_bot_call (trace w).
Proof.
  destruct (validate_file_frame file_ w)
    as (w' & Hrun & Hf & Hd & Hn & Hcalls & _).
  exists w'. repeat split; assumption.
Qed.

(** One attempt, whatever comes of it: no file object and nothing on disk
    is changed, and [send_video] is called once at most. *)
Lemma upload_attempt_frame (file_ : nat) (w w' : World) (o : outcome unit) :
  upload_attempt self file_ w = (o, w') ->
  files w' = files w /\ disk w' = disk w
  /\ (send_video_calls (trace w') <= S (send_video_calls (trace w)))%nat.
Proof.
  unfold upload_attempt, try_except, __upload. unfold bind at 1.
  destruct (validate_file_frame file_ w)
    as (w0 & Hval & Hf & Hd & _ & _ & Hcalls).
  rewrite Hval.
  destruct (passes_validation w file_); cbn [negb].
  - unfold file_thumbnail, emit, on_net. run_py.
    destruct (send_chat_action (task_conf_group_id self) (net w0))
      as [[[] | e] n1]; cbn [files disk net trace].
    + match goal with
      | |- context [send_video ?args n1] =>
          destruct (send_video args n1) as [[[] | e] n2]
      end; intros [= _ <-]; cbn [files disk net trace]; rewrite Hf, Hd;
        (split; [reflexivity | split; [reflexivity |]]);
        rewrite !send_video_calls_app, Hcalls;
        unfold send_video_calls; cbn; lia.
    + intros [= _ <-]. cbn [files disk net trace]. rewrite Hf, Hd.
      split; [reflexivity | split; [reflexivity |]].
      rewrite !send_video_calls_app, Hcalls.
      unfold send_video_calls. cbn. lia.
  - intros [= _ <-]. rewrite Hf, Hd, Hcalls. repeat split. lia.
Qed.

Lemma retrying_frame (file_ : nat) (n : nat) :
  forall (w w' : World) (o : outcome unit),
    retrying n (upload_attempt self file_) w = (o, w') ->
    files w' = files w /\ disk w' = disk w
    /\ (send_video_calls (trace w')
        <= send_video_calls (trace w) + S n)%nat.
Proof.
  induction n as [| n IH]; intros w w' o; cbn [retrying];
    destruct (upload_attempt self file_ w) as [[[] | e] w1] eqn:Hrun;
    apply upload_attempt_frame in Hrun as (Hf & Hd & Hcalls).
  - intros [= _ <-]. repeat split; try assumption. lia.
  - intros [= _ <-]. repeat split; try assumption. lia.
  - intros [= _ <-]. repeat split; try assumption. lia.
  - intros Hrest. apply IH in Hrest as (Hf' & Hd' & Hcalls').
    split; [congruence |]. split; [congruence |]. lia.
Qed.

(** X14. [_upload_video], whatever the transport does and however it ends, calls
    [send_video] five times at most and changes no file object: only the
    loop of [_process_queue] moves a lock count. *)
Theorem upload_is_bounded (file_ : nat) (w w' : World) (o : outcome unit) :
  _upload_video self file_ w = (o, w') ->
  files w' = files w /\ disk w' = disk w
  /\ (send_video_calls (trace w') <= send_video_calls (trace w) + 5)%nat.
Proof.
  unfold _upload_video, retry, _UPLOAD_RETRY_STOP_AFTER. cbn [Nat.sub].
  apply retrying_frame.
Qed.

(** ** Failures followed by a delivery *)

Lemma retrying_after_failures {W A : Type} (k : nat) (body : M W A) (a : A) :
  forall (n : nat) (w w1 w2 : W),
    (k <= n)%nat ->
    fails_in_a_row k body w w1 ->
    body w1 = (Return a, w2) ->
    retrying n body w = (Return a, w2).
Proof.
  induction k as [| k IH]; intros n w w1 w2 Hk Hfails Hlast.
  - cbn in Hfails. subst w1. now apply retrying_returns.
  - destruct Hfails as (e & w0 & Hfirst & Hrest).
    destruct n as [| n]; [lia |].
    rewrite (retrying_again _ _ _ _ _ Hfirst).
    apply (IH n w0 w1 w2); [lia | assumption | assumption].
Qed.

Lemma failures_frame (file_ : nat) (k : nat) :
  forall w w1,
    fails_in_a_row k (upload_attempt self file_) w w1 ->
    files w1 = files w.
Proof.
  induction k as [| k IH]; intros w w1 Hfails.
  - cbn in Hfails. now subst.
  - destruct Hfails as (e & w0 & Hfirst & Hrest).
    apply upload_attempt_frame in Hfirst as (Hf & _).
    rewrite (IH _ _ Hrest). exact Hf.
Qed.

(** X15. When the attempts for a file fail fewer than five times in a row and
    the next one returns, the turn of the worker returns in the world of
    that attempt with the lock count of the file decremented once. *)
Theorem upload_retried_until_delivered (file_ : nat) (k : nat)
    (w w1 w2 : World) :
  (k < 5)%nat ->
  fails_in_a_row k (upload_attempt self file_) w w1 ->
  upload_attempt self file_ w1 = (Return tt, w2) ->
  process_file self file_ w
  = (Return tt, update_file file_ FileWrapper.decrement_lock_count w2)
  /\ files (update_file file_ FileWrapper.decrement_lock_count w2) file_
     = FileWrapper.decrement_lock_count (files w file_).
Proof.
  intros Hk Hfails Hlast.
  assert (Hup : _upload_video self file_ w = (Return tt, w2)).
  { unfold _upload_video, retry, _UPLOAD_RETRY_STOP_AFTER. cbn [Nat.sub].
    apply (retrying_after_failures k _ tt 4 w w1 w2); [lia | assumption..]. }
  split.
  - apply (returned_upload_decrements self file_ [] w w2 Hup).
  - cbn [update_file files]. rewrite Nat.eqb_refl.
    apply upload_attempt_frame in Hlast as (Hf & _).
    rewrite Hf, (failures_frame file_ k w w1 Hfails). reflexivity.
Qed.

(** ** A transport that always delivers *)

Lemma upload_attempt_delivers (file_ : nat) (w : World) :
  transport_always_delivers ->
  exists w',
    upload_attempt self file_ w = (Return tt, w')
    /\ files w' = files w /\ disk w' = disk w.
Proof.
  intros [Hchat Hvideo].
  destruct (upload_attempt self file_ w) as [o w'] eqn:Hrun.
  pose proof (upload_attempt_frame _ _ _ _ Hrun) as (Hf & Hd & _).
  exists w'. split; [| split; assumption]. f_equal.
  revert Hrun. unfold upload_attempt, try_except, __upload. unfold bind at 1.
  destruct (validate_file_frame file_ w) as (w0 & Hval & _).
  rewrite Hval. destruct (passes_validation w file_); cbn [negb].
  - unfold file_thumbnail, emit, on_net. run_py.
    destruct (Hchat (task_conf_group_id self) (net w0)) as (n1 & Hc).
    rewrite Hc. cbn.
    match goal with
    | |- context [send_video ?args n1] =>
        destruct (Hvideo args n1) as (n2 & Hv); rewrite Hv
    end.
    now intros [= <- _].
  - now intros [= <- _].
Qed.

Lemma decrements_step (n : nat) (f : FileWrapper.DvrFile) :
  FileWrapper.decrements (S n) f
  = FileWrapper.decrements n (FileWrapper.decrement_lock_count f).
Proof. reflexivity. Qed.

(** X16. With a transport that always delivers, [_process_queue] goes through
    the whole queue, valid files or not, and leaves every file with its lock
    count decremented once for each time it was queued. *)
Theorem queue_is_drained (queue : list nat) :
  transport_always_delivers ->
  forall w,
    exists w',
      _process_queue self queue w = (Return tt, w')
      /\ disk w' = disk w
      /\ forall i,
           files w' i
           = FileWrapper.decrements (count_occ Nat.eq_dec queue i)
               (files w i).
Proof.
  intros Hdelivers. induction queue as [| file_ rest IH]; intros w.
  - exists w. repeat split.
  - destruct (upload_attempt_delivers file_ w Hdelivers)
      as (w1 & Hrun & Hf & Hd).
    assert (Hup : _upload_video self file_ w = (Return tt, w1)).
    { unfold _upload_video, retry. now apply retrying_returns. }
    destruct (returned_upload_decrements self file_ rest w w1 Hup)
      as (_ & Hloop).
    destruct (IH (update_file file_ FileWrapper.decrement_lock_count w1))
      as (w' & Hrest & Hd' & Hfiles).
    exists w'. split; [now rewrite Hloop |].
    split; [now rewrite Hd' |].
    intros i. rewrite Hfiles. cbn [update_file files count_occ].
    rewrite Hf. destruct (Nat.eq_dec file_ i) as [-> | Hne].
    + now rewrite Nat.eqb_refl.
    + destruct (Nat.eqb_spec i file_); [congruence | reflexivity].
Qed.


End WorkerSpec.

Lemma bot_ok_always_delivers : @transport_always_delivers Scenario.bot_ok.
Proof. split; intros; exists n; reflexivity. Qed.

Lemma upload_retried_until_delivered_witness :
  exists w2,
    process_file Scenario.task1 0 (Scenario.upload_world_flaky 2)
    = (Return tt, update_file 0 FileWrapper.decrement_lock_count w2)
    /\ send_video_calls (trace w2) = 3%nat
    /\ FileWrapper.lock_count
         (files (update_file 0 FileWrapper.decrement_lock_count w2) 0) = 1.
Proof.
  pose (wa := snd (upload_attempt Scenario.task1 0
                     (Scenario.upload_world_flaky 2))).
  pose (wb := snd (upload_attempt Scenario.task1 0 wa)).
  pose (w2 := snd (upload_attempt Scenario.task1 0 wb)).
  destruct (upload_retried_until_delivered Scenario.task1 0 2
              (Scenario.upload_world_flaky 2) wb w2) as [Hturn Hlock].
  - lia.
  - cbn [fails_in_a_row].
    exists (OtherError "network down"), wa.
    split; [vm_compute; reflexivity |].
    exists (OtherError "network down"), wb.
    split; [vm_compute; reflexivity | reflexivity].
  - vm_compute. reflexivity.
  - exists w2. split; [exact Hturn |]. split; [vm_compute; reflexivity |].
    rewrite Hlock. vm_compute. reflexivity.
Defined.

Lemma queue_is_drained_witness :
  exists w',
    _process_queue Scenario.task1 [0; 1; 0; 2]%nat
      (Scenario.upload_world_ok Scenario.disk_bad) = (Return tt, w')
    /\ FileWrapper.lock_count (files w' 0) = 0
    /\ FileWrapper.lock_count (files w' 1) = 0
    /\ FileWrapper.lock_count (files w' 2) = 1.
Proof.
  destruct (queue_is_drained Scenario.task1 [0; 1; 0; 2]%nat
              bot_ok_always_delivers
              (Scenario.upload_world_ok Scenario.disk_bad))
    as (w' & Hrun & _ & Hfiles).
  exists w'. split; [exact Hrun |].
  rewrite !Hfiles. by_evaluation.
Defined.


Lemma upload_is_bounded_witness :
  (send_video_calls
     (trace (snd (_upload_video Scenario.task1 0 Scenario.upload_world_down)))
   <= 0 + 5)%nat
  /\ files (snd (_upload_video Scenario.task1 0 Scenario.upload_world_down))
     = files Scenario.upload_world_down.
Proof.
  destruct (upload_is_bounded Scenario.task1 0 Scenario.upload_world_down
              (snd (_upload_video Scenario.task1 0 Scenario.upload_world_down))
              (fst (_upload_video Scenario.task1 0 Scenario.upload_world_down)))
    as (Hf & _ & Hcalls).
  - now destruct (_upload_video Scenario.task1 0 Scenario.upload_world_down).
  - split; [exact Hcalls | exact Hf].
Defined.

End TelegramSpec.

(* ====================================================================== *)
(** * Properties of the other handlers *)
(* ====================================================================== *)

Module HandlersSpec.
Import Handlers.
Local Open Scope list_scope.

Section HandlersSpec.
Context `{Camera}.
Context `{ExceptionText}.

(** X18. The snapshot handler always returns and always puts exactly one
    event on the queue: the snapshot with the camera's count read after the
    shot, or, whatever exception the camera raised, a text event that gives
    the id and description of the camera and, after ["Details: "], the text
    of the exception as [str] formats it. *)
Theorem snapshot_always_replies (ev : GetPicEvent) (w : World) :
  exists w' reply,
    TaskTakeSnapshot_handle ev w = (Return tt, w')
    /\ result_queue w' = result_queue w ++ [reply]
    /\ device w'
       = snd (take_snapshot (on_demand_channel w) (pic_resize ev) (device w))
    /\ match
         fst (take_snapshot (on_demand_channel w) (pic_resize ev) (device w))
       with
       | Return (img, create_ts) =>
           reply
           = SnapshotOutboundEvent (pic_event ev) img create_ts
               (snapshots_taken (device w')) (pic_resize ev) (pic_message ev)
               (cam w) (nbytes img)
       | Raise err =>
           reply
           = SendTextOutboundEvent SEND_TEXT
               ("🛑 "
                ++ bold ("Failed to take picture on [" ++ cam_id (cam w)
                         ++ "] " ++ cam_description (cam w))
                ++ newline ++ newline
                ++ bold ("👀 Details: " ++ str_err err))%string
               (pic_message ev)
       end.
Proof.
  unfold TaskTakeSnapshot_handle, snapshot_failure_text, put, on_device.
  run_py.
  destruct (take_snapshot (on_demand_channel w) (pic_resize ev) (device w))
    as [[[img create_ts] | err] d]; cbn;
    eexists; eexists; repeat split.
Qed.

(** The value of [text] after the [try] of the two toggle handlers, and
    whether the handler goes on to its [put]. *)
Lemma start_or_stop_run (service_type : ServiceType)
    (service_name : ServiceName) (state : bool) (w : World) :
  start_or_stop service_type service_name state w
  = let call :=
      if state then service_manager_start service_type service_name
      else service_manager_stop service_type service_name in
    let w' :=
      {| cam := cam w; on_demand_channel := on_demand_channel w;
         device := snd (call (device w)); result_queue := result_queue w |} in
    match fst (call (device w)) with
    | Return _ => (Return None, w')
    | Raise (ServiceRuntimeError msg) => (Return (Some msg), w')
    | Raise e => (Raise e, w')
    end.
Proof.
  unfold start_or_stop, on_device. run_py.
  destruct state.
  - destruct (service_manager_start service_type service_name (device w))
      as [[[] | e] d]; [reflexivity |]. destruct e; reflexivity.
  - destruct (service_manager_stop service_type service_name (device w))
      as [[[] | e] d]; [reflexivity |]. destruct e; reflexivity.
Qed.

(** X19. The alarm toggle calls [start] for state on and [stop] for state off.
    When the call returns, or raises a [ServiceRuntimeError], the handler
    returns having put exactly one event, with the requested state and with
    [None] or the message of the error as its text; any other exception
    leaves the handler and nothing is put. *)
Theorem alarm_toggle_replies (ev : AlertConfEvent) (w : World) :
  let call :=
    if alert_state ev
    then service_manager_start (alert_service_type ev) (alert_service_name ev)
    else service_manager_stop (alert_service_type ev) (alert_service_name ev)
  in
  let reply text :=
    AlarmConfOutboundEvent (alert_event ev) (alert_service_type ev)
      (alert_service_name ev) (alert_state ev) (cam w) (alert_message ev) text
  in
  exists w',
    device w' = snd (call (device w))
    /\ match fst (call (device w)) with
       | Return _ =>
           TaskAlarmConf_handle ev w = (Return tt, w')
           /\ result_queue w' = result_queue w ++ [reply None]
       | Raise (ServiceRuntimeError msg) =>
           TaskAlarmConf_handle ev w = (Return tt, w')
           /\ result_queue w' = result_queue w ++ [reply (Some msg)]
       | Raise e =>
           TaskAlarmConf_handle ev w = (Raise e, w')
           /\ result_queue w' = result_queue w
       end.
Proof.
  cbv zeta. unfold TaskAlarmConf_handle, bind, get, put, modify.
  cbv beta iota. rewrite start_or_stop_run. cbv zeta.
  destruct (alert_state ev);
    match goal with
    | |- context [fst (?call (device w))] =>
        destruct (call (device w)) as [[[] | e] d]
    end; cbn [fst snd]; try (destruct e);
    (eexists; split; [| split; reflexivity]; reflexivity).
Qed.

(** X20. The stream toggle follows the same pattern with its own event. *)
Theorem stream_toggle_replies (ev : StreamEvent) (w : World) :
  let call :=
    if stream_state ev
    then service_manager_start (stream_service_type ev) (stream_type ev)
    else service_manager_stop (stream_service_type ev) (stream_type ev)
  in
  let reply text :=
    StreamOutboundEvent (stream_event ev) (stream_service_type ev)
      (stream_type ev) (stream_state ev) (cam w) (stream_message ev) text
  in
  exists w',
    device w' = snd (call (device w))
    /\ match fst (call (device w)) with
       | Return _ =>
           TaskStreamConf_handle ev w = (Return tt, w')
           /\ result_queue w' = result_queue w ++ [reply None]
       | Raise (ServiceRuntimeError msg) =>
           TaskStreamConf_handle ev w = (Return tt, w')
           /\ result_queue w' = result_queue w ++ [reply (Some msg)]
       | Raise e =>
           TaskStreamConf_handle ev w = (Raise e, w')
           /\ result_queue w' = result_queue w
       end.
Proof.
  cbv zeta. unfold TaskStreamConf_handle, log, ret, bind, get, put, modify.
  cbv beta iota. rewrite start_or_stop_run. cbv zeta.
  destruct (stream_state ev);
    match goal with
    | |- context [fst (?call (device w))] =>
        destruct (call (device w)) as [[[] | e] d]
    end; cbn [fst snd]; try (destruct e);
    (eexists; split; [| split; reflexivity]; reflexivity).
Qed.

(** X21. The two handlers without a failure branch. Recording never puts an
    event, whether [start_videogif_record] returns or raises. The IR-cut
    handler puts its one confirmation only when [set_ircut_filter] returned;
    when it raises, the exception leaves the handler and nothing is put. *)
Theorem handlers_without_failure_branch (w : World) :
  (forall ev : GetVideoEvent,
     TaskRecordVideoGif_handle ev w
     = (fst (start_videogif_record (video_message ev) (video_rewind ev)
               (device w)),
        snd (TaskRecordVideoGif_handle ev w))
     /\ result_queue (snd (TaskRecordVideoGif_handle ev w)) = result_queue w)
  /\ (forall ev : IrcutConfEvent,
       exists w',
         match fst (set_ircut_filter (ircut_filter_type ev) (device w)) with
         | Return _ =>
             TaskIrcutFilterConf_handle ev w = (Return tt, w')
             /\ exists text,
                  result_queue w'
                  = result_queue w
                    ++ [SendTextOutboundEvent SEND_TEXT text (ircut_message ev)]
         | Raise e =>
             TaskIrcutFilterConf_handle ev w = (Raise e, w')
             /\ result_queue w' = result_queue w
         end).
Proof.
  split; intros ev.
  - unfold TaskRecordVideoGif_handle, on_device.
    destruct (start_videogif_record (video_message ev) (video_rewind ev)
                (device w)) as [o d].
    split; reflexivity.
  - unfold TaskIrcutFilterConf_handle, on_device, put. run_py.
    destruct (set_ircut_filter (ircut_filter_type ev) (device w))
      as [[[] | e] d]; cbn; eexists; split; try reflexivity.
    eexists. reflexivity.
Qed.

End HandlersSpec.

(** Turning the alarm on twice through the handler on [Scenario.camera]: the
    first reply has no text, the second carries the message of the
    service. *)
Example alarm_toggled_on_twice :
  let w1 := snd (@TaskAlarmConf_handle _ Scenario.camera Scenario.alarm_on
                   (Scenario.handlers_world true)) in
  let w2 := snd (@TaskAlarmConf_handle _ Scenario.camera Scenario.alarm_on w1)
  in
  @TaskAlarmConf_handle _ Scenario.camera Scenario.alarm_on w1
  = (Return tt, w2)
  /\ @result_queue _ Scenario.camera w2
     = [@AlarmConfOutboundEvent Scenario.environment "CONFIGURE_ALARM" "alarm"
          "alarm" true Scenario.cam1 "message 8" None;
        @AlarmConfOutboundEvent Scenario.environment "CONFIGURE_ALARM" "alarm"
          "alarm" true Scenario.cam1 "message 8"
          (Some "Alarm (alert) mode already started"%string)].
Proof. cbv zeta. by_evaluation. Qed.

Example snapshot_of_offline_camera :
  exists w',
    @TaskTakeSnapshot_handle _ Scenario.camera Scenario.exception_text
      Scenario.get_pic (Scenario.handlers_world false) = (Return tt, w')
    /\ @result_queue _ Scenario.camera w'
       = [@SendTextOutboundEvent Scenario.environment "SEND_TEXT"
            ("🛑 <b>Failed to take picture on [cam_1] Front door</b>"
             ++ newline ++ newline
             ++ "<b>👀 Details: camera offline</b>")%string
            "message 7"].
Proof.
  exists (snd (@TaskTakeSnapshot_handle _ Scenario.camera
                 Scenario.exception_text Scenario.get_pic
                 (Scenario.handlers_world false))).
  by_evaluation.
Qed.

End HandlersSpec.
